(** * Safety wrappers: finite-state monitors around a black-box model

    A shallow embedding of the wrapper decision engine
    ([backend/wrappers/*.py]) and of the request driver
    ([backend/main.py], [backend/logging/logger.py]), followed by the
    properties of the design document checked against it.

    Conventions of the embedding.
    - A Python [str] is a [string]; read the characters as the UTF-8 bytes
      of the text.  [x in y] on strings is then byte-wise substring search,
      and [==] is [=].  The two library methods the code calls, [str.lower]
      and [str.strip], are taken abstractly through the class [PyStr]; the
      theorems hold for every implementation of them.  [ascii_str] is the
      instance that agrees with Python on ASCII text and is used to run the
      model on concrete inputs.
    - A Python [int] is a [Z].
    - An exception is a value of [exn]; code that can raise returns a
      [result].
    - The configuration document is taken as loaded and well typed: [k] and
      [max_queries] are integers when present (so [int(...)] is the
      identity), [banned_keywords] is a list of strings when present.
    - The model endpoint and the clock are external: they are an [Env].
      The trace file and two observation counters (model calls made,
      wrapper steps taken) are the [World] threaded through a request.
    - Reading the settings file, creating the log directory and the HTTP
      layer around the handler are left out; [query] starts from the
      loaded settings and the parsed request. *)

From Stdlib Require Import ZArith List String Ascii Bool Lia DecimalString.
Import ListNotations.

Local Open Scope Z_scope.
Local Open Scope string_scope.

(** ** Python strings *)

Class PyStr := {
  str_lower : string -> string;
  str_strip : string -> string
}.

(** [needle in hay] for two strings. *)
Fixpoint str_in (needle hay : string) : bool :=
  if String.prefix needle hay then true
  else match hay with
       | EmptyString => false
       | String _ rest => str_in needle rest
       end.

(** [x in xs] for a list of strings. *)
Definition list_in (x : string) (xs : list string) : bool :=
  existsb (String.eqb x) xs.

(** Truthiness of a string: [not s] is [true] exactly on the empty string. *)
Definition str_not (s : string) : bool :=
  match s with
  | EmptyString => true
  | String _ _ => false
  end.

(** [str(n)] for an integer. *)
Definition str_of_int (n : Z) : string := NilZero.string_of_int (Z.to_int n).

(** *** The ASCII instance *)

(** [c.isspace()] on the ASCII range: tab, LF, VT, FF, CR, the four
    separators 0x1c-0x1f and the space. *)
Definition ascii_isspace (c : ascii) : bool :=
  let n := nat_of_ascii c in
  ((9 <=? n) && (n <=? 13) || (28 <=? n) && (n <=? 32))%nat.

Definition ascii_lower_char (c : ascii) : ascii :=
  let n := nat_of_ascii c in
  if ((65 <=? n) && (n <=? 90))%nat then ascii_of_nat (n + 32) else c.

Fixpoint ascii_lower (s : string) : string :=
  match s with
  | EmptyString => EmptyString
  | String c rest => String (ascii_lower_char c) (ascii_lower rest)
  end.

Fixpoint ascii_lstrip (s : string) : string :=
  match s with
  | EmptyString => EmptyString
  | String c rest => if ascii_isspace c then ascii_lstrip rest else s
  end.

Fixpoint ascii_rstrip (s : string) : string :=
  match s with
  | EmptyString => EmptyString
  | String c rest =>
      match ascii_rstrip rest with
      | EmptyString => if ascii_isspace c then EmptyString else String c EmptyString
      | rest' => String c rest'
      end
  end.

Definition ascii_strip (s : string) : string := ascii_rstrip (ascii_lstrip s).

#[export] Instance ascii_str : PyStr :=
  {| str_lower := ascii_lower; str_strip := ascii_strip |}.

(** ** Exceptions *)

Inductive exn : Type :=
| ValueError (msg : string)
| IndexError (msg : string)
| HTTPException (status_code : Z) (detail : string).

Inductive result (A : Type) : Type :=
| Ok (a : A)
| Raise (e : exn).

Arguments Ok {A} a.
Arguments Raise {A} e.

Definition bind {A B : Type} (m : result A) (f : A -> result B) : result B :=
  match m with
  | Ok a => f a
  | Raise e => Raise e
  end.

Notation "x <- m ;; k" := (bind m (fun x => k))
  (at level 61, m at next level, right associativity).

(** [xs.pop(0)]: the first element and the remaining list; [IndexError] on
    the empty list. *)
Definition list_pop0 {A : Type} (xs : list A) : result (A * list A) :=
  match xs with
  | [] => Raise (IndexError "pop from empty list")
  | x :: rest => Ok (x, rest)
  end.

(** ** backend/wrappers/base.py *)

Inductive Action : Type := ALLOW | BLOCK | MODIFY | REQUERY.

(** [action.value] *)
Definition Action_value (a : Action) : string :=
  match a with
  | ALLOW => "ALLOW"
  | BLOCK => "BLOCK"
  | MODIFY => "MODIFY"
  | REQUERY => "REQUERY"
  end.

Definition Action_eqb (a b : Action) : bool :=
  match a, b with
  | ALLOW, ALLOW | BLOCK, BLOCK | MODIFY, MODIFY | REQUERY, REQUERY => true
  | _, _ => false
  end.

(** A wrapper's config block: the three keys the wrappers read, each
    present or missing. *)
Record WrapperConfig : Type := mkWrapperConfig {
  cfg_banned_keywords : option (list string);
  cfg_k : option Z;
  cfg_max_queries : option Z
}.

(** The empty dict [{}]. *)
Definition empty_config : WrapperConfig :=
  {| cfg_banned_keywords := None; cfg_k := None; cfg_max_queries := None |}.

(** [d.get(key, default)] *)
Definition dict_get {A : Type} (v : option A) (default : A) : A :=
  match v with
  | Some a => a
  | None => default
  end.

(** What [get_state()] returns, one shape per wrapper. *)
Inductive StateSnapshot : Type :=
| StateNoop
| StateKeyword (banned_keywords : list string)
| StateHistory (k : Z) (buffer : list string)
| StateQueryBudget (call_count : Z) (max_queries : Z).

(** ** backend/wrappers/noop.py *)

Module NoopWrapper.

Record t : Type := mk { config : WrapperConfig }.

Definition __init__ (config : WrapperConfig) : t := {| config := config |}.

Definition reset (self : t) : t := self.

Definition step (self : t) (user_prompt model_output : string) (call_index : Z)
  : result (Action * string * t) :=
  Ok (ALLOW, model_output, self).

Definition get_state (self : t) : StateSnapshot := StateNoop.

End NoopWrapper.

(** ** backend/wrappers/keyword.py *)

Module KeywordWrapper.

Definition BLOCK_MESSAGE : string := "[Blocked by keyword wrapper]".

Record t : Type := mk { config : WrapperConfig; _keywords : list string }.

Definition __init__ `{PyStr} (config : WrapperConfig) : t :=
  {| config := config;
     _keywords := map str_lower (dict_get (cfg_banned_keywords config) []) |}.

Definition reset (self : t) : t := self.

(** The [for kw in self._keywords] loop with its early [return]. *)
Fixpoint any_keyword_in (keywords : list string) (prompt_lower : string) : bool :=
  match keywords with
  | [] => false
  | kw :: rest => if str_in kw prompt_lower then true else any_keyword_in rest prompt_lower
  end.

Definition step `{PyStr} (self : t) (user_prompt model_output : string) (call_index : Z)
  : result (Action * string * t) :=
  let prompt_lower := str_lower user_prompt in
  if any_keyword_in (_keywords self) prompt_lower
  then Ok (BLOCK, BLOCK_MESSAGE, self)
  else Ok (ALLOW, model_output, self).

Definition get_state (self : t) : StateSnapshot := StateKeyword (_keywords self).

End KeywordWrapper.

(** ** backend/wrappers/history.py *)

Module HistoryWrapper.

Record t : Type := mk { config : WrapperConfig; _k : Z; _buffer : list string }.

Definition __init__ (config : WrapperConfig) : t :=
  {| config := config; _k := dict_get (cfg_k config) 3; _buffer := [] |}.

Definition reset (self : t) : t :=
  {| config := config self; _k := _k self; _buffer := [] |}.

Definition set_buffer (self : t) (buffer : list string) : t :=
  {| config := config self; _k := _k self; _buffer := buffer |}.

Definition step `{PyStr} (self : t) (user_prompt model_output : string) (call_index : Z)
  : result (Action * string * t) :=
  let out_stripped := str_strip model_output in
  if str_not out_stripped then Ok (REQUERY, "", self)
  else if list_in out_stripped (_buffer self) then Ok (REQUERY, "", self)
  else
    let appended := (_buffer self ++ [out_stripped])%list in
    if (Z.of_nat (List.length appended) >? _k self)%Z
    then popped <- list_pop0 appended ;;
         Ok (ALLOW, model_output, set_buffer self (snd popped))
    else Ok (ALLOW, model_output, set_buffer self appended).

Definition get_state (self : t) : StateSnapshot :=
  StateHistory (_k self) (_buffer self).

End HistoryWrapper.

(** ** backend/wrappers/query_budget.py *)

Module QueryBudgetWrapper.

Record t : Type := mk { config : WrapperConfig; _max_queries : Z; _calls : Z }.

Definition __init__ (config : WrapperConfig) : t :=
  {| config := config;
     _max_queries := dict_get (cfg_max_queries config) 2;
     _calls := 0 |}.

Definition reset (self : t) : t :=
  {| config := config self; _max_queries := _max_queries self; _calls := 0 |}.

Definition step (self : t) (user_prompt model_output : string) (call_index : Z)
  : result (Action * string * t) :=
  Ok (ALLOW, model_output,
      {| config := config self;
         _max_queries := _max_queries self;
         _calls := call_index + 1 |}).

Definition get_state (self : t) : StateSnapshot :=
  StateQueryBudget (_calls self) (_max_queries self).

End QueryBudgetWrapper.

(** ** backend/wrappers/__init__.py *)

(** An instance of one of the four registered classes. *)
Inductive Wrapper : Type :=
| Noop (w : NoopWrapper.t)
| Keyword (w : KeywordWrapper.t)
| History (w : HistoryWrapper.t)
| QueryBudget (w : QueryBudgetWrapper.t).

Definition get_wrapper `{PyStr} (name : string) (config : WrapperConfig) : result Wrapper :=
  if name =? "noop" then Ok (Noop (NoopWrapper.__init__ config))
  else if name =? "keyword" then Ok (Keyword (KeywordWrapper.__init__ config))
  else if name =? "history" then Ok (History (HistoryWrapper.__init__ config))
  else if name =? "query_budget" then Ok (QueryBudget (QueryBudgetWrapper.__init__ config))
  else Raise (ValueError ("Unknown wrapper: " ++ name)).

(** Method dispatch. *)
Definition wrapper_reset (w : Wrapper) : Wrapper :=
  match w with
  | Noop s => Noop (NoopWrapper.reset s)
  | Keyword s => Keyword (KeywordWrapper.reset s)
  | History s => History (HistoryWrapper.reset s)
  | QueryBudget s => QueryBudget (QueryBudgetWrapper.reset s)
  end.

Definition wrapper_step `{PyStr} (w : Wrapper) (user_prompt model_output : string)
    (call_index : Z) : result (Action * string * Wrapper) :=
  match w with
  | Noop s =>
      r <- NoopWrapper.step s user_prompt model_output call_index ;;
      Ok (fst r, Noop (snd r))
  | Keyword s =>
      r <- KeywordWrapper.step s user_prompt model_output call_index ;;
      Ok (fst r, Keyword (snd r))
  | History s =>
      r <- HistoryWrapper.step s user_prompt model_output call_index ;;
      Ok (fst r, History (snd r))
  | QueryBudget s =>
      r <- QueryBudgetWrapper.step s user_prompt model_output call_index ;;
      Ok (fst r, QueryBudget (snd r))
  end.

Definition wrapper_get_state (w : Wrapper) : StateSnapshot :=
  match w with
  | Noop s => NoopWrapper.get_state s
  | Keyword s => KeywordWrapper.get_state s
  | History s => HistoryWrapper.get_state s
  | QueryBudget s => QueryBudgetWrapper.get_state s
  end.

(** ** backend/logging/logger.py *)

Module TraceRecord.

Record t : Type := mk {
  timestamp : string;
  model_name : string;
  wrapper_name : string;
  wrapper_config : WrapperConfig;
  user_prompt : string;
  raw_model_outputs : list string;
  wrapper_decisions : list string;
  final_output : string;
  total_model_calls : Z;
  wrapper_state : StateSnapshot
}.

End TraceRecord.

(** The state a request reads and changes: the lines of the trace file, in
    file order, and two observation counters. *)
Record World : Type := mkWorld {
  trace_file : list TraceRecord.t;
  model_calls : nat;
  wrapper_steps : nat
}.

(** [log_trace]: builds the record from its arguments and appends it as one
    line to the file opened in mode ["a"]. *)
Definition log_trace (timestamp model_name wrapper_name : string)
    (wrapper_config : WrapperConfig) (user_prompt : string)
    (raw_model_outputs wrapper_decisions : list string) (final_output : string)
    (total_model_calls : Z) (wrapper_state : StateSnapshot) (world : World) : World :=
  let record :=
    {| TraceRecord.timestamp := timestamp;
       TraceRecord.model_name := model_name;
       TraceRecord.wrapper_name := wrapper_name;
       TraceRecord.wrapper_config := wrapper_config;
       TraceRecord.user_prompt := user_prompt;
       TraceRecord.raw_model_outputs := raw_model_outputs;
       TraceRecord.wrapper_decisions := wrapper_decisions;
       TraceRecord.final_output := final_output;
       TraceRecord.total_model_calls := total_model_calls;
       TraceRecord.wrapper_state := wrapper_state |} in
  {| trace_file := (trace_file world ++ [record])%list;
     model_calls := model_calls world;
     wrapper_steps := wrapper_steps world |}.

(** ** backend/main.py *)

(** The loaded settings document.  The block [wrappers] is flattened:
    [default], [keyword], [history] and [query_budget] are its keys. *)
Module Config.

Record t : Type := mk {
  model_name : option string;
  default : option string;
  keyword : option WrapperConfig;
  history : option WrapperConfig;
  query_budget : option WrapperConfig
}.

End Config.

Module QueryRequest.

Record t : Type := mk {
  prompt : string;
  wrapper_name : option string;
  max_queries : option Z
}.

End QueryRequest.

Module QueryResponse.

Record t : Type := mk {
  final_output : string;
  wrapper_decision : string;
  decision_summary : string;
  model_call_count : Z;
  raw_outputs : list string;
  decisions_sequence : list string
}.

End QueryResponse.

Definition get_wrapper_config (cfg : Config.t) (wrapper_name : string) : WrapperConfig :=
  if wrapper_name =? "keyword" then dict_get (Config.keyword cfg) empty_config
  else if wrapper_name =? "history" then dict_get (Config.history cfg) empty_config
  else if wrapper_name =? "query_budget" then dict_get (Config.query_budget cfg) empty_config
  else empty_config.

(** The external collaborators of a request: the completion endpoint, as
    the answer to the [n]-th call this process makes (a text, or the
    exception the client raises), and the clock read when a trace is
    written. *)
Record Env : Type := mkEnv {
  model_complete : nat -> string -> string -> result string;
  utcnow_isoformat : string
}.

(** [str(e)] *)
Definition exn_str (e : exn) : string :=
  match e with
  | ValueError msg => msg
  | IndexError msg => msg
  | HTTPException _ detail => detail
  end.

Definition call_model (env : Env) (prompt model_name : string) (world : World)
    : result string * World :=
  (model_complete env (model_calls world) prompt model_name,
   {| trace_file := trace_file world;
      model_calls := S (model_calls world);
      wrapper_steps := wrapper_steps world |}).

Definition count_step (world : World) : World :=
  {| trace_file := trace_file world;
     model_calls := model_calls world;
     wrapper_steps := S (wrapper_steps world) |}.

(** The local variables of [query] that its [while] loop carries. *)
Record Run : Type := mkRun {
  wrapper : Wrapper;
  raw_outputs : list string;
  decisions_sequence : list string;
  final_output : string;
  call_index : Z
}.

(** The [while call_index < max_calls] loop.  One unit of [fuel] is one
    evaluation of the loop condition; [None] is a loop that has not left
    after [fuel] of them. *)
Fixpoint query_loop `{PyStr} (fuel : nat) (env : Env) (prompt model_name : string)
    (max_calls : Z) (run : Run) (world : World) : option (result Run * World) :=
  match fuel with
  | O => None
  | S fuel' =>
      if (call_index run <? max_calls)%Z then
        let called := call_model env prompt model_name world in
        match fst called with
        | Raise e => Some (Raise (HTTPException 502 (exn_str e)), snd called)
        | Ok out =>
            let raw_outputs' := (raw_outputs run ++ [out])%list in
            let world' := count_step (snd called) in
            match wrapper_step (wrapper run) prompt out (call_index run) with
            | Raise e => Some (Raise e, world')
            | Ok (action, output_to_use, wrapper') =>
                let decisions' := (decisions_sequence run ++ [Action_value action])%list in
                match action with
                | ALLOW | BLOCK | MODIFY =>
                    Some (Ok {| wrapper := wrapper';
                                raw_outputs := raw_outputs';
                                decisions_sequence := decisions';
                                final_output := output_to_use;
                                call_index := call_index run |}, world')
                | REQUERY =>
                    let call_index' := call_index run + 1 in
                    if (call_index' >=? max_calls)%Z then
                      Some (Ok {| wrapper := wrapper';
                                  raw_outputs := raw_outputs';
                                  decisions_sequence := decisions';
                                  final_output := last raw_outputs' "";
                                  call_index := call_index' |}, world')
                    else
                      query_loop fuel' env prompt model_name max_calls
                        {| wrapper := wrapper';
                           raw_outputs := raw_outputs';
                           decisions_sequence := decisions';
                           final_output := final_output run;
                           call_index := call_index' |} world'
                end
            end
        end
      else Some (Ok run, world)
  end.

(** The call budget of a request (lines 108-119). *)
Definition resolve_max_calls (cfg : Config.t) (req : QueryRequest.t)
    (wrapper_name : string) (wrapper_config : WrapperConfig) : Z :=
  let max_queries := dict_get (cfg_max_queries (dict_get (Config.query_budget cfg) empty_config)) 2 in
  let history_k := dict_get (cfg_k (dict_get (Config.history cfg) empty_config)) 3 in
  if wrapper_name =? "query_budget" then
    match QueryRequest.max_queries req with
    | Some user_limit =>
        if ((1 <=? user_limit) && (user_limit <=? 10))%Z then user_limit
        else dict_get (cfg_max_queries wrapper_config) max_queries
    | None => dict_get (cfg_max_queries wrapper_config) max_queries
    end
  else if wrapper_name =? "history" then
    Z.max max_queries (dict_get (cfg_k wrapper_config) history_k + 2)
  else max_queries.

(** The summary sentence chosen after the loop (lines 185-201). *)
Definition summarize (wrapper_name last_decision : string)
    (decisions_sequence : list string) (num_calls max_calls : Z) : string :=
  if (wrapper_name =? "keyword") && (last_decision =? Action_value BLOCK) then
    "Blocked: your prompt contained a banned or harmful keyword."
  else if (wrapper_name =? "keyword") && (last_decision =? Action_value ALLOW) then
    "Allowed: no banned keywords detected in your prompt."
  else if wrapper_name =? "noop" then
    "No filter applied (baseline). Response was not checked for safety."
  else if wrapper_name =? "history" then
    if list_in (Action_value REQUERY) decisions_sequence then
      "History: re-queried due to empty or duplicate output; allowed after "
        ++ str_of_int num_calls ++ " call(s)."
    else "History: response allowed after 1 call (no empty or duplicate)."
  else if wrapper_name =? "query_budget" then
    "Query budget: up to " ++ str_of_int max_calls ++ " call(s); used "
      ++ str_of_int num_calls ++ "."
  else "Decision: " ++ last_decision ++ ".".

(** Lines 149-226: the loop, the summary, the trace and the response. *)
Definition query_run `{PyStr} (env : Env) (model_name wrapper_name : string)
    (wrapper_config : WrapperConfig) (prompt : string) (max_calls : Z)
    (wrapper0 : Wrapper) (world : World) : option (result QueryResponse.t * World) :=
  let run0 := {| wrapper := wrapper0; raw_outputs := []; decisions_sequence := [];
                 final_output := ""; call_index := 0 |} in
  match query_loop (S (Z.to_nat max_calls)) env prompt model_name max_calls run0 world with
  | None => None
  | Some (Raise e, world') => Some (Raise e, world')
  | Some (Ok run, world') =>
      let last_decision := last (decisions_sequence run) (Action_value ALLOW) in
      let num_calls := Z.of_nat (List.length (raw_outputs run)) in
      let decision_summary :=
        summarize wrapper_name last_decision (decisions_sequence run) num_calls max_calls in
      let world'' :=
        log_trace (utcnow_isoformat env) model_name wrapper_name wrapper_config prompt
          (raw_outputs run) (decisions_sequence run) (final_output run)
          (Z.of_nat (List.length (raw_outputs run)))
          (wrapper_get_state (wrapper run)) world' in
      Some (Ok {| QueryResponse.final_output := final_output run;
                  QueryResponse.wrapper_decision := last_decision;
                  QueryResponse.decision_summary := decision_summary;
                  QueryResponse.model_call_count := Z.of_nat (List.length (raw_outputs run));
                  QueryResponse.raw_outputs := raw_outputs run;
                  QueryResponse.decisions_sequence := decisions_sequence run |}, world'')
  end.

(** [req.wrapper_name or cfg.get("wrappers", {}).get("default", "noop")] *)
Definition resolve_wrapper_name (cfg : Config.t) (req : QueryRequest.t) : string :=
  match QueryRequest.wrapper_name req with
  | Some name => if str_not name then dict_get (Config.default cfg) "noop" else name
  | None => dict_get (Config.default cfg) "noop"
  end.

Definition EMPTY_PROMPT_RESPONSE : QueryResponse.t :=
  {| QueryResponse.final_output := "[Empty prompt]";
     QueryResponse.wrapper_decision := "SKIP";
     QueryResponse.decision_summary :=
       "No prompt entered; no model call. No safety decision applied.";
     QueryResponse.model_call_count := 0;
     QueryResponse.raw_outputs := [];
     QueryResponse.decisions_sequence := [] |}.

(** The handler of [POST /query].  [Some (Ok r, w)] is the response [r];
    [Some (Raise e, w)] is the exception that leaves the handler. *)
Definition query `{PyStr} (env : Env) (cfg : Config.t) (req : QueryRequest.t)
    (world : World) : option (result QueryResponse.t * World) :=
  let model_name := dict_get (Config.model_name cfg) "google/gemini-2.5-flash-lite" in
  let wrapper_name := resolve_wrapper_name cfg req in
  let wrapper_config := get_wrapper_config cfg wrapper_name in
  let prompt := str_strip (QueryRequest.prompt req) in
  if str_not prompt then Some (Ok EMPTY_PROMPT_RESPONSE, world)
  else
    match get_wrapper wrapper_name wrapper_config with
    | Raise e => Some (Raise e, world)
    | Ok built =>
        let wrapper0 := wrapper_reset built in
        let max_calls := resolve_max_calls cfg req wrapper_name wrapper_config in
        if wrapper_name =? "keyword" then
          let world1 := count_step world in
          match wrapper_step wrapper0 prompt "" 0 with
          | Raise e => Some (Raise e, world1)
          | Ok (pre_action, pre_output, wrapper1) =>
              if Action_eqb pre_action BLOCK then
                let world2 :=
                  log_trace (utcnow_isoformat env) model_name wrapper_name wrapper_config
                    prompt [] [Action_value BLOCK] pre_output 0
                    (wrapper_get_state wrapper1) world1 in
                Some (Ok {| QueryResponse.final_output := pre_output;
                            QueryResponse.wrapper_decision := Action_value BLOCK;
                            QueryResponse.decision_summary :=
                              "Blocked: your prompt contained a banned or harmful keyword. No model call made.";
                            QueryResponse.model_call_count := 0;
                            QueryResponse.raw_outputs := [];
                            QueryResponse.decisions_sequence := [Action_value BLOCK] |},
                      world2)
              else
                query_run env model_name wrapper_name wrapper_config prompt max_calls
                  wrapper1 world1
          end
        else
          query_run env model_name wrapper_name wrapper_config prompt max_calls
            wrapper0 world
    end.

(** ** Sequences of steps *)

(** The last [n] entries of a list, in their order. *)
Definition last_n {A : Type} (n : nat) (xs : list A) : list A :=
  skipn (List.length xs - n) xs.

(** A call of [step]: its three arguments. *)
Definition step_call : Type := (string * string * Z)%type.

(** [step] called once per entry of [calls], in order, on the same
    instance; the actions returned and the instance afterwards. *)
Fixpoint history_steps `{PyStr} (self : HistoryWrapper.t) (calls : list step_call)
    : result (list Action * HistoryWrapper.t) :=
  match calls with
  | [] => Ok ([], self)
  | (user_prompt, model_output, call_index) :: rest =>
      r <- HistoryWrapper.step self user_prompt model_output call_index ;;
      rs <- history_steps (snd r) rest ;;
      Ok (fst (fst r) :: fst rs, snd rs)
  end.

(** The stripped outputs of the calls that were answered ALLOW, oldest
    first. *)
Fixpoint allowed_outputs `{PyStr} (calls : list step_call) (actions : list Action)
    : list string :=
  match calls, actions with
  | (_, model_output, _) :: calls', action :: actions' =>
      if Action_eqb action ALLOW
      then str_strip model_output :: allowed_outputs calls' actions'
      else allowed_outputs calls' actions'
  | _, _ => []
  end.

(** The wrapper of a request fed the raw outputs [outs] one by one, the way
    the loop of [query] feeds it, from call index [call_index] on. *)
Fixpoint wrapper_feed `{PyStr} (w : Wrapper) (prompt : string) (outs : list string)
    (call_index : Z) : result (list Action * Wrapper) :=
  match outs with
  | [] => Ok ([], w)
  | out :: rest =>
      r <- wrapper_step w prompt out call_index ;;
      rs <- wrapper_feed (snd r) prompt rest (call_index + 1) ;;
      Ok (fst (fst r) :: fst rs, snd rs)
  end.

(** Whether a request leaves [query] through the Keyword pre-check (lines
    122-147): the prompt is not empty once stripped, the wrapper is the
    Keyword one, and one of its lower-cased keywords is in the lower-cased
    prompt. *)
Definition keyword_precheck_blocks `{PyStr} (cfg : Config.t) (req : QueryRequest.t) : bool :=
  let wrapper_name := resolve_wrapper_name cfg req in
  let prompt := str_strip (QueryRequest.prompt req) in
  negb (str_not prompt)
  && (wrapper_name =? "keyword")
  && KeywordWrapper.any_keyword_in
       (map str_lower
          (dict_get (cfg_banned_keywords (get_wrapper_config cfg wrapper_name)) []))
       (str_lower prompt).

(** ** Concrete collaborators, for running the model *)

(** A fresh process: empty trace file, no call made yet. *)
Definition world0 : World :=
  {| trace_file := []; model_calls := 0; wrapper_steps := 0 |}.

(** A model stub that answers its [n]-th call with the [n]-th entry of
    [answers] and fails once they are used up. *)
Definition stub_env (answers : list string) : Env :=
  {| model_complete := fun n _ _ =>
       match nth_error answers n with
       | Some text => Ok text
       | None => Raise (ValueError "upstream failure")
       end;
     utcnow_isoformat := "2026-01-01T00:00:00+00:00" |}.

(** A settings document with the three wrapper blocks filled in. *)
Definition example_config (banned_keywords : list string) (k max_queries : Z) : Config.t :=
  {| Config.model_name := None;
     Config.default := None;
     Config.keyword :=
       Some {| cfg_banned_keywords := Some banned_keywords;
               cfg_k := None; cfg_max_queries := None |};
     Config.history :=
       Some {| cfg_banned_keywords := None; cfg_k := Some k; cfg_max_queries := None |};
     Config.query_budget :=
       Some {| cfg_banned_keywords := None; cfg_k := None;
               cfg_max_queries := Some max_queries |} |}.

Definition example_request (prompt wrapper_name : string) (max_queries : option Z)
    : QueryRequest.t :=
  {| QueryRequest.prompt := prompt;
     QueryRequest.wrapper_name := Some wrapper_name;
     QueryRequest.max_queries := max_queries |}.

(** The response [query] returns from the Keyword pre-check (lines 140-147). *)
Definition precheck_response : QueryResponse.t :=
  {| QueryResponse.final_output := KeywordWrapper.BLOCK_MESSAGE;
     QueryResponse.wrapper_decision := Action_value BLOCK;
     QueryResponse.decision_summary :=
       "Blocked: your prompt contained a banned or harmful keyword. No model call made.";
     QueryResponse.model_call_count := 0;
     QueryResponse.raw_outputs := [];
     QueryResponse.decisions_sequence := [Action_value BLOCK] |}.

(** ** backend/main.py: the discovery and configuration endpoints *)

Module WrapperInfo.

Record t : Type := mk {
  id : string;
  label : string;
  description : string
}.

End WrapperInfo.

(** [GET /wrappers] *)
Definition list_wrappers : list WrapperInfo.t :=
  [ {| WrapperInfo.id := "noop";
       WrapperInfo.label := "No filter (baseline)";
       WrapperInfo.description :=
         "No safety check. Use to compare with other options." |};
    {| WrapperInfo.id := "keyword";
       WrapperInfo.label := "Block harmful keywords";
       WrapperInfo.description :=
         "Blocks prompts containing banned words (e.g. bomb, hack, weapon). Best for stopping obviously harmful requests." |};
    {| WrapperInfo.id := "history";
       WrapperInfo.label := "History-based";
       WrapperInfo.description :=
         "Avoids empty or repeated answers by re-asking the model (bounded history)." |};
    {| WrapperInfo.id := "query_budget";
       WrapperInfo.label := "Query budget";
       WrapperInfo.description :=
         "Limits how many times the model is called per request. Useful for cost control." |} ].

(** What [GET /config] answers.  [wrapper_configs] is the block [wrappers]
    of the settings: its [default] and its three wrapper blocks. *)
Module ConfigView.

Record t : Type := mk {
  model_name : option string;
  default_wrapper : option string;
  wrapper_configs :
    option string * option WrapperConfig * option WrapperConfig * option WrapperConfig;
  min_queries : Z;
  max_queries : Z;
  default_queries : Z
}.

End ConfigView.

Definition get_config (cfg : Config.t) : ConfigView.t :=
  let qb := dict_get (Config.query_budget cfg) empty_config in
  {| ConfigView.model_name := Config.model_name cfg;
     ConfigView.default_wrapper := Config.default cfg;
     ConfigView.wrapper_configs :=
       (Config.default cfg, Config.keyword cfg, Config.history cfg,
        Config.query_budget cfg);
     ConfigView.min_queries := 1;
     ConfigView.max_queries := 10;
     ConfigView.default_queries := dict_get (cfg_max_queries qb) 2 |}.

(** ** experiments/analyze.py *)

(** [is_blocked], on a record as [log_trace] writes it. *)
Definition is_blocked (record : TraceRecord.t) : bool :=
  list_in "BLOCK" (TraceRecord.wrapper_decisions record).

(** * Properties *)

Section Properties.

Context `{PyStr}.

(** ** Small facts about the string and list helpers *)

Lemma str_not_true (s : string) : str_not s = true <-> s = "".
Proof. destruct s; simpl; split; congruence. Qed.

Lemma str_not_false (s : string) : str_not s = false <-> s <> "".
Proof. destruct s; simpl; split; congruence. Qed.

Lemma list_in_true (x : string) (xs : list string) : list_in x xs = true <-> In x xs.
Proof.
  unfold list_in. rewrite existsb_exists. split.
  - intros [y [Hy Heq]]. apply String.eqb_eq in Heq. now subst.
  - intros Hin. exists x. split; [assumption | apply String.eqb_refl].
Qed.

Lemma list_in_false (x : string) (xs : list string) : list_in x xs = false <-> ~ In x xs.
Proof.
  rewrite <- list_in_true. destruct (list_in x xs); split; congruence.
Qed.

Lemma last_snoc {A : Type} (xs : list A) (x d : A) : last (xs ++ [x]) d = x.
Proof. apply last_last. Qed.

(** ** The loop of [query] *)

Ltac world_simpl :=
  cbn [call_model count_step log_trace trace_file model_calls wrapper_steps fst snd
       wrapper raw_outputs decisions_sequence final_output call_index] in *.

Section Loop.

Variables (env : Env) (prompt model_name : string) (max_calls : Z).

(** The loop leaves within the fuel [query_run] gives it: an iteration
    either leaves or moves [call_index] one closer to [max_calls]. *)
Lemma query_loop_total (fuel : nat) :
  forall run world,
    (Z.to_nat (max_calls - call_index run) < fuel)%nat ->
    query_loop fuel env prompt model_name max_calls run world <> None.
Proof.
  induction fuel as [|fuel IH]; intros run world Hfuel; [lia|].
  simpl.
  destruct (call_index run <? max_calls)%Z eqn:Hlt; [|discriminate].
  destruct (model_complete env (model_calls world) prompt model_name); [|discriminate].
  destruct (wrapper_step (wrapper run) prompt a (call_index run)) as [[[action out] w']|];
    [|discriminate].
  destruct action; try discriminate.
  destruct (call_index run + 1 >=? max_calls)%Z eqn:Hge; [discriminate|].
  apply IH. simpl. apply Z.ltb_lt in Hlt. lia.
Qed.

(** What one execution of the loop does to the world and to the two
    sequences: the trace file is not touched, every model call adds one raw
    output and one decision, and the calls stay within the budget left. *)
Lemma query_loop_effects (fuel : nat) :
  forall run world res world',
    query_loop fuel env prompt model_name max_calls run world = Some (res, world') ->
    trace_file world' = trace_file world /\
    Z.of_nat (model_calls world') - Z.of_nat (model_calls world)
      <= Z.max 0 (max_calls - call_index run) /\
    (model_calls world <= model_calls world')%nat /\
    match res with
    | Ok run' =>
        exists raws decs,
          raw_outputs run' = (raw_outputs run ++ raws)%list /\
          decisions_sequence run' = (decisions_sequence run ++ decs)%list /\
          List.length decs = List.length raws /\
          model_calls world' = (model_calls world + List.length raws)%nat
    | Raise _ => True
    end.
Proof.
  induction fuel as [|fuel IH]; intros run world res world' Hrun; [discriminate|].
  simpl in Hrun.
  destruct (call_index run <? max_calls)%Z eqn:Hlt.
  2:{ injection Hrun as <- <-. repeat split; try lia.
      exists [], []. rewrite !app_nil_r. simpl. repeat split; try reflexivity; lia. }
  apply Z.ltb_lt in Hlt.
  destruct (model_complete env (model_calls world) prompt model_name) as [out|e].
  2:{ injection Hrun as <- <-. world_simpl. repeat split; try reflexivity; lia. }
  destruct (wrapper_step (wrapper run) prompt out (call_index run))
    as [[[action text] w']|e].
  2:{ injection Hrun as <- <-. world_simpl. repeat split; try reflexivity; lia. }
  assert (Hone : forall final idx,
             Some (Ok {| wrapper := w';
                         raw_outputs := (raw_outputs run ++ [out])%list;
                         decisions_sequence :=
                           (decisions_sequence run ++ [Action_value action])%list;
                         final_output := final;
                         call_index := idx |},
                   count_step (snd (call_model env prompt model_name world)))
               = Some (res, world') ->
             trace_file world' = trace_file world /\
             Z.of_nat (model_calls world') - Z.of_nat (model_calls world)
               <= Z.max 0 (max_calls - call_index run) /\
             (model_calls world <= model_calls world')%nat /\
             match res with
             | Ok run' =>
                 exists raws decs,
                   raw_outputs run' = (raw_outputs run ++ raws)%list /\
                   decisions_sequence run' = (decisions_sequence run ++ decs)%list /\
                   List.length decs = List.length raws /\
                   model_calls world' = (model_calls world + List.length raws)%nat
             | Raise _ => True
             end).
  { intros final idx E. injection E as <- <-. world_simpl.
    repeat split; try reflexivity; try lia.
    exists [out], [Action_value action]. cbn [List.length].
    repeat split; try reflexivity; lia. }
  destruct action; try (apply (Hone _ _ Hrun)).
  destruct (call_index run + 1 >=? max_calls)%Z eqn:Hge; [apply (Hone _ _ Hrun)|].
  apply IH in Hrun. world_simpl.
  destruct Hrun as (Htr & Hcalls & Hmono & Hres).
  repeat split; try assumption; try lia.
  destruct res as [run'|e]; [|exact I].
  destruct Hres as (raws & decs & Hr & Hd & Hlen & Hm).
  exists (out :: raws), (Action_value REQUERY :: decs).
  rewrite Hr, Hd, <- !app_assoc. cbn [List.length app].
  repeat split; try reflexivity; lia.
Qed.

End Loop.

(** ** After the loop: summary, trace and response *)

(** [query_run] always returns.  A response comes with exactly one record
    appended to the trace file, whose call count is the number of model
    calls made; an exception leaves the trace file as it was. *)
Lemma query_run_spec (env : Env) (model_name wrapper_name : string)
    (wrapper_config : WrapperConfig) (prompt : string) (max_calls : Z)
    (wrapper0 : Wrapper) (world : World) :
  exists res world',
    query_run env model_name wrapper_name wrapper_config prompt max_calls wrapper0 world
      = Some (res, world') /\
    Z.of_nat (model_calls world') - Z.of_nat (model_calls world) <= Z.max 0 max_calls /\
    (model_calls world <= model_calls world')%nat /\
    match res with
    | Ok resp =>
        exists record,
          trace_file world' = (trace_file world ++ [record])%list /\
          TraceRecord.total_model_calls record
            = Z.of_nat (List.length (QueryResponse.raw_outputs resp)) /\
          TraceRecord.raw_model_outputs record = QueryResponse.raw_outputs resp /\
          TraceRecord.wrapper_decisions record = QueryResponse.decisions_sequence resp /\
          TraceRecord.final_output record = QueryResponse.final_output resp /\
          QueryResponse.model_call_count resp
            = Z.of_nat (List.length (QueryResponse.raw_outputs resp)) /\
          List.length (QueryResponse.decisions_sequence resp)
            = List.length (QueryResponse.raw_outputs resp) /\
          model_calls world'
            = (model_calls world + List.length (QueryResponse.raw_outputs resp))%nat /\
          QueryResponse.wrapper_decision resp
            = last (QueryResponse.decisions_sequence resp) (Action_value ALLOW)
    | Raise _ => trace_file world' = trace_file world
    end.
Proof.
  unfold query_run.
  set (run0 := {| wrapper := wrapper0; raw_outputs := []; decisions_sequence := [];
                  final_output := ""; call_index := 0 |}).
  destruct (query_loop (S (Z.to_nat max_calls)) env prompt model_name max_calls run0 world)
    as [[res world']|] eqn:Hloop.
  2:{ exfalso. revert Hloop. apply query_loop_total. subst run0. world_simpl. lia. }
  apply query_loop_effects in Hloop.
  destruct Hloop as (Htr & Hcalls & Hmono & Hres).
  subst run0. world_simpl. rewrite Z.sub_0_r in Hcalls.
  destruct res as [run|e].
  - destruct Hres as (raws & decs & Hr & Hd & Hlen & Hm). simpl in Hr, Hd.
    eexists _, _. split; [reflexivity|]. world_simpl.
    cbn [QueryResponse.raw_outputs QueryResponse.decisions_sequence
         QueryResponse.final_output QueryResponse.model_call_count
         QueryResponse.wrapper_decision].
    split; [assumption|]. split; [assumption|].
    eexists. split; [rewrite Htr; reflexivity|].
    cbn [TraceRecord.total_model_calls TraceRecord.raw_model_outputs
         TraceRecord.wrapper_decisions TraceRecord.final_output].
    rewrite Hr, Hd. repeat split; try reflexivity; assumption.
  - eexists _, _. split; [reflexivity|]. repeat split; assumption.
Qed.

(** ** The History wrapper *)

Lemma last_n_length {A : Type} (n : nat) (xs : list A) :
  List.length (last_n n xs) = Nat.min n (List.length xs).
Proof. unfold last_n. rewrite length_skipn. lia. Qed.

Lemma tl_skipn_snoc {A : Type} (m : nat) :
  forall (xs : list A) (x : A),
    (m <= List.length xs)%nat ->
    tl (skipn m xs ++ [x]) = skipn (S m) (xs ++ [x]).
Proof.
  induction m as [|m IH]; intros xs x Hm.
  - destruct xs; reflexivity.
  - destruct xs as [|a xs]; simpl in Hm; [lia|].
    change (skipn (S m) (a :: xs)) with (skipn m xs).
    change (skipn (S (S m)) ((a :: xs) ++ [x])) with (skipn (S m) (xs ++ [x])).
    apply IH. lia.
Qed.

(** Appending to a window that is not yet full keeps every entry. *)
Lemma last_n_snoc_room {A : Type} (n : nat) (xs : list A) (x : A) :
  (List.length xs < n)%nat -> (last_n n xs ++ [x])%list = last_n n (xs ++ [x]).
Proof.
  intros Hlen. unfold last_n. rewrite length_app. cbn [List.length].
  replace (List.length xs - n)%nat with 0%nat by lia.
  replace (List.length xs + 1 - n)%nat with 0%nat by lia.
  reflexivity.
Qed.

(** Appending to a full window drops its first entry. *)
Lemma last_n_snoc_full {A : Type} (n : nat) (xs : list A) (x : A) :
  (n <= List.length xs)%nat -> tl (last_n n xs ++ [x]) = last_n n (xs ++ [x]).
Proof.
  intros Hlen. unfold last_n. rewrite length_app. cbn [List.length].
  replace (List.length xs + 1 - n)%nat with (S (List.length xs - n)) by lia.
  apply tl_skipn_snoc. lia.
Qed.

(** [step] without the exception of [pop(0)]: the list it pops from has
    just been appended to. *)
Lemma history_step_eq (self : HistoryWrapper.t) (user_prompt model_output : string)
    (call_index : Z) :
  let out_stripped := str_strip model_output in
  let appended := (HistoryWrapper._buffer self ++ [out_stripped])%list in
  HistoryWrapper.step self user_prompt model_output call_index
    = Ok (if str_not out_stripped || list_in out_stripped (HistoryWrapper._buffer self)
          then (REQUERY, "", self)
          else (ALLOW, model_output,
                HistoryWrapper.set_buffer self
                  (if (Z.of_nat (List.length appended) >? HistoryWrapper._k self)%Z
                   then tl appended else appended))).
Proof.
  intros out_stripped appended. unfold HistoryWrapper.step.
  fold out_stripped. fold appended.
  destruct (str_not out_stripped); [reflexivity|].
  destruct (list_in out_stripped (HistoryWrapper._buffer self)); [reflexivity|].
  cbn [orb].
  destruct (Z.of_nat (List.length appended) >? HistoryWrapper._k self)%Z; [|reflexivity].
  subst appended. destruct (HistoryWrapper._buffer self); reflexivity.
Qed.

(** C2.  [HistoryWrapper.step] strips the model output; an empty stripped
    output is answered REQUERY, a stripped output already in the buffer is
    answered REQUERY, and any other is appended to the buffer, the oldest
    entry leaving when the buffer has grown past [k], and answered ALLOW
    with the model output as it came. *)
Theorem history_step_spec (self : HistoryWrapper.t) (user_prompt model_output : string)
    (call_index : Z) :
  let out_stripped := str_strip model_output in
  let appended := (HistoryWrapper._buffer self ++ [out_stripped])%list in
  (out_stripped = "" ->
   HistoryWrapper.step self user_prompt model_output call_index
     = Ok (REQUERY, "", self)) /\
  (out_stripped <> "" -> In out_stripped (HistoryWrapper._buffer self) ->
   HistoryWrapper.step self user_prompt model_output call_index
     = Ok (REQUERY, "", self)) /\
  (out_stripped <> "" -> ~ In out_stripped (HistoryWrapper._buffer self) ->
   Z.of_nat (List.length appended) <= HistoryWrapper._k self ->
   HistoryWrapper.step self user_prompt model_output call_index
     = Ok (ALLOW, model_output, HistoryWrapper.set_buffer self appended)) /\
  (out_stripped <> "" -> ~ In out_stripped (HistoryWrapper._buffer self) ->
   Z.of_nat (List.length appended) > HistoryWrapper._k self ->
   HistoryWrapper.step self user_prompt model_output call_index
     = Ok (ALLOW, model_output, HistoryWrapper.set_buffer self (tl appended))).
Proof.
  intros out_stripped appended.
  pose proof (history_step_eq self user_prompt model_output call_index) as Heq.
  cbv zeta in Heq. fold out_stripped in Heq. fold appended in Heq.
  rewrite Heq. clear Heq.
  repeat split.
  - intros Hempty. apply str_not_true in Hempty. now rewrite Hempty.
  - intros Hne Hin. apply list_in_true in Hin. rewrite Hin.
    now rewrite orb_true_r.
  - intros Hne Hnin Hfit. apply str_not_false in Hne. apply list_in_false in Hnin.
    rewrite Hne, Hnin. cbn [orb].
    destruct (Z.of_nat (List.length appended) >? HistoryWrapper._k self)%Z eqn:Hgt;
      [apply Z.gtb_gt in Hgt; lia | reflexivity].
  - intros Hne Hnin Hover. apply str_not_false in Hne. apply list_in_false in Hnin.
    rewrite Hne, Hnin. cbn [orb].
    destruct (Z.of_nat (List.length appended) >? HistoryWrapper._k self)%Z eqn:Hgt;
      [reflexivity|].
    rewrite Z.gtb_ltb in Hgt. apply Z.ltb_ge in Hgt. lia.
Qed.

(** One step keeps [_k] and keeps the buffer the window of the last
    [max(k, 0)] allowed outputs. *)
Lemma history_step_window (self : HistoryWrapper.t) (user_prompt model_output : string)
    (call_index : Z) (hist : list string) :
  HistoryWrapper._buffer self = last_n (Z.to_nat (HistoryWrapper._k self)) hist ->
  exists action text self',
    HistoryWrapper.step self user_prompt model_output call_index
      = Ok (action, text, self') /\
    HistoryWrapper._k self' = HistoryWrapper._k self /\
    HistoryWrapper._buffer self'
      = last_n (Z.to_nat (HistoryWrapper._k self))
          (if Action_eqb action ALLOW
           then hist ++ [str_strip model_output] else hist)%list.
Proof.
  intros Hwin.
  rewrite history_step_eq. cbv zeta.
  destruct (str_not (str_strip model_output)
            || list_in (str_strip model_output) (HistoryWrapper._buffer self)).
  { exists REQUERY, "", self. repeat split. exact Hwin. }
  pose proof (last_n_length (Z.to_nat (HistoryWrapper._k self)) hist) as Hlen.
  rewrite <- Hwin in Hlen.
  eexists ALLOW, model_output, _. split; [reflexivity|]. split; [reflexivity|].
  cbn [HistoryWrapper.set_buffer HistoryWrapper._buffer Action_eqb].
  rewrite length_app. cbn [List.length].
  destruct (Z.of_nat (List.length (HistoryWrapper._buffer self) + 1)
              >? HistoryWrapper._k self)%Z eqn:Hgt.
  - apply Z.gtb_gt in Hgt. rewrite Hwin. apply last_n_snoc_full. lia.
  - rewrite Z.gtb_ltb in Hgt. apply Z.ltb_ge in Hgt. rewrite Hwin.
    apply last_n_snoc_room. lia.
Qed.

Lemma history_steps_window (calls : list step_call) :
  forall (self : HistoryWrapper.t) (hist : list string),
    HistoryWrapper._buffer self = last_n (Z.to_nat (HistoryWrapper._k self)) hist ->
    exists actions self',
      history_steps self calls = Ok (actions, self') /\
      List.length actions = List.length calls /\
      HistoryWrapper._k self' = HistoryWrapper._k self /\
      HistoryWrapper._buffer self'
        = last_n (Z.to_nat (HistoryWrapper._k self))
            (hist ++ allowed_outputs calls actions)%list.
Proof.
  induction calls as [|[[user_prompt model_output] call_index] calls IH];
    intros self hist Hwin.
  - exists [], self. cbn [history_steps allowed_outputs]. rewrite app_nil_r.
    repeat split. exact Hwin.
  - destruct (history_step_window self user_prompt model_output call_index hist Hwin)
      as (action & text & self1 & Hstep & Hk1 & Hbuf1).
    rewrite <- Hk1 in Hbuf1.
    destruct (IH self1 _ Hbuf1) as (actions & self' & Hsteps & Hlen & Hk & Hbuf).
    exists (action :: actions), self'.
    cbn [history_steps allowed_outputs]. rewrite Hstep. cbn [bind fst snd].
    rewrite Hsteps. cbn [bind fst snd List.length].
    repeat split; [congruence | congruence |].
    rewrite Hbuf, Hk1. f_equal.
    destruct (Action_eqb action ALLOW); [rewrite <- app_assoc|]; reflexivity.
Qed.

(** C8 (as the code has it).  After [reset], whatever the sequence of
    [step] calls, no call raises, [_k] stays as constructed and the buffer
    holds the last [max(k, 0)] allowed outputs, oldest first: its length
    never exceeds [max(k, 0)], and what has left it are the oldest allowed
    outputs. *)
Theorem history_buffer_window (self : HistoryWrapper.t) (calls : list step_call) :
  exists actions self',
    history_steps (HistoryWrapper.reset self) calls = Ok (actions, self') /\
    List.length actions = List.length calls /\
    HistoryWrapper._k self' = HistoryWrapper._k self /\
    Z.of_nat (List.length (HistoryWrapper._buffer self')) <= Z.max (HistoryWrapper._k self) 0 /\
    HistoryWrapper._buffer self'
      = last_n (Z.to_nat (HistoryWrapper._k self)) (allowed_outputs calls actions).
Proof.
  destruct (history_steps_window calls (HistoryWrapper.reset self) [])
    as (actions & self' & Hsteps & Hlen & Hk & Hbuf).
  { cbn [HistoryWrapper.reset HistoryWrapper._buffer HistoryWrapper._k].
    unfold last_n. now rewrite skipn_nil. }
  cbn [HistoryWrapper.reset HistoryWrapper._k app] in Hk, Hbuf.
  exists actions, self'. repeat split; try assumption.
  rewrite Hbuf, last_n_length. lia.
Qed.

(** ** Construction and [step] of every wrapper *)

Lemma wrapper_step_total (w : Wrapper) (user_prompt model_output : string)
    (call_index : Z) :
  exists action text w',
    wrapper_step w user_prompt model_output call_index = Ok (action, text, w').
Proof.
  destruct w as [s|s|s|s]; cbn [wrapper_step].
  - eexists _, _, _. reflexivity.
  - unfold KeywordWrapper.step.
    destruct (KeywordWrapper.any_keyword_in _ _); eexists _, _, _; reflexivity.
  - rewrite history_step_eq. cbv zeta.
    destruct (str_not _ || list_in _ _); eexists _, _, _; reflexivity.
  - eexists _, _, _. reflexivity.
Qed.

(** C5 (as the code has it).  The constructors keep the configured numbers
    as they are: [HistoryWrapper] stores [k] (default 3) and
    [QueryBudgetWrapper] stores [max_queries] (default 2) without clamping;
    [KeywordWrapper] takes a missing [banned_keywords] for the empty list;
    and [step] raises on no wrapper, whatever its state and arguments. *)
Theorem wrapper_config_kept_as_given (config : WrapperConfig) :
  HistoryWrapper._k (HistoryWrapper.__init__ config) = dict_get (cfg_k config) 3 /\
  QueryBudgetWrapper._max_queries (QueryBudgetWrapper.__init__ config)
    = dict_get (cfg_max_queries config) 2 /\
  KeywordWrapper._keywords
    (KeywordWrapper.__init__
       {| cfg_banned_keywords := None;
          cfg_k := cfg_k config;
          cfg_max_queries := cfg_max_queries config |}) = [] /\
  forall (w : Wrapper) (user_prompt model_output : string) (call_index : Z),
  exists action text w',
    wrapper_step w user_prompt model_output call_index = Ok (action, text, w').
Proof.
  repeat split. apply wrapper_step_total.
Qed.

(** ** The Keyword wrapper *)

Lemma any_keyword_in_true (keywords : list string) (prompt_lower : string) :
  KeywordWrapper.any_keyword_in keywords prompt_lower = true <->
  exists kw, In kw keywords /\ str_in kw prompt_lower = true.
Proof.
  induction keywords as [|k keywords IH]; cbn [KeywordWrapper.any_keyword_in].
  - split; [discriminate | intros (kw & [] & _)].
  - destruct (str_in k prompt_lower) eqn:Hk.
    + split; [intros _; exists k; split; [now left | assumption] | reflexivity].
    + rewrite IH. split.
      * intros (kw & Hin & Hkw). exists kw. split; [now right | assumption].
      * intros (kw & [Heq|Hin] & Hkw); [congruence | now exists kw].
Qed.

(** A banned keyword found in the prompt, both lower-cased, makes the
    wrapper built from the config answer BLOCK with the fixed message. *)
Lemma keyword_step_block (config : WrapperConfig) (kw user_prompt model_output : string)
    (call_index : Z) :
  In kw (dict_get (cfg_banned_keywords config) []) ->
  str_in (str_lower kw) (str_lower user_prompt) = true ->
  KeywordWrapper.step (KeywordWrapper.reset (KeywordWrapper.__init__ config))
      user_prompt model_output call_index
    = Ok (BLOCK, KeywordWrapper.BLOCK_MESSAGE, KeywordWrapper.__init__ config).
Proof.
  intros Hin Hsub. unfold KeywordWrapper.step, KeywordWrapper.reset.
  cbn [KeywordWrapper.__init__ KeywordWrapper._keywords].
  replace (KeywordWrapper.any_keyword_in _ _) with true; [reflexivity|].
  symmetry. apply any_keyword_in_true. exists (str_lower kw).
  split; [now apply in_map | assumption].
Qed.

(** C1 (as the code has it).  With the Keyword wrapper selected, a prompt
    that is not empty once stripped and whose stripped, lower-cased text
    contains a configured banned keyword, lower-cased, is answered BLOCK
    with the fixed message; the model is not called, and the one trace
    record of the request says so. *)
Theorem keyword_block_before_model (env : Env) (cfg : Config.t) (req : QueryRequest.t)
    (world : World) (kw : string) :
  resolve_wrapper_name cfg req = "keyword" ->
  In kw (dict_get (cfg_banned_keywords (get_wrapper_config cfg "keyword")) []) ->
  str_strip (QueryRequest.prompt req) <> "" ->
  str_in (str_lower kw) (str_lower (str_strip (QueryRequest.prompt req))) = true ->
  exists resp world',
    query env cfg req world = Some (Ok resp, world') /\
    QueryResponse.final_output resp = "[Blocked by keyword wrapper]" /\
    QueryResponse.wrapper_decision resp = "BLOCK" /\
    QueryResponse.decisions_sequence resp = ["BLOCK"] /\
    QueryResponse.model_call_count resp = 0 /\
    QueryResponse.raw_outputs resp = [] /\
    model_calls world' = model_calls world /\
    exists record,
      trace_file world' = (trace_file world ++ [record])%list /\
      TraceRecord.wrapper_decisions record = ["BLOCK"] /\
      TraceRecord.total_model_calls record = 0 /\
      TraceRecord.final_output record = "[Blocked by keyword wrapper]".
Proof.
  intros Hname Hin Hne Hsub. unfold query. rewrite Hname.
  apply str_not_false in Hne. rewrite Hne.
  cbn [get_wrapper String.eqb Ascii.eqb Bool.eqb wrapper_reset wrapper_step].
  rewrite (keyword_step_block _ kw _ _ _ Hin Hsub).
  cbn [bind fst snd Action_eqb].
  eexists _, _. split; [reflexivity|].
  repeat split. eexists. repeat split.
Qed.

(** ** The request handler *)

Lemma get_wrapper_keyword (config : WrapperConfig) :
  get_wrapper "keyword" config = Ok (Keyword (KeywordWrapper.__init__ config)).
Proof. reflexivity. Qed.

(** Every path through [query] at once.  The handler always returns; the
    model is called at most [max(0, max_calls)] times; a response reports
    the calls made; it comes with no trace record on the empty-prompt path
    and with exactly one, appended, on every other; an exception leaves the
    trace file as it was. *)
Lemma query_cases (env : Env) (cfg : Config.t) (req : QueryRequest.t) (world : World) :
  let wrapper_name := resolve_wrapper_name cfg req in
  let max_calls :=
    resolve_max_calls cfg req wrapper_name (get_wrapper_config cfg wrapper_name) in
  exists res world',
    query env cfg req world = Some (res, world') /\
    Z.of_nat (model_calls world') - Z.of_nat (model_calls world) <= Z.max 0 max_calls /\
    (model_calls world <= model_calls world')%nat /\
    match res with
    | Ok resp =>
        QueryResponse.model_call_count resp
          = Z.of_nat (List.length (QueryResponse.raw_outputs resp)) /\
        model_calls world'
          = (model_calls world + List.length (QueryResponse.raw_outputs resp))%nat /\
        (if keyword_precheck_blocks cfg req
         then QueryResponse.decisions_sequence resp = ["BLOCK"]
              /\ QueryResponse.raw_outputs resp = []
         else List.length (QueryResponse.decisions_sequence resp)
              = List.length (QueryResponse.raw_outputs resp)) /\
        (if str_not (str_strip (QueryRequest.prompt req))
         then resp = EMPTY_PROMPT_RESPONSE /\ world' = world
         else exists record,
             trace_file world' = (trace_file world ++ [record])%list /\
             TraceRecord.total_model_calls record
               = Z.of_nat (List.length (QueryResponse.raw_outputs resp)) /\
             TraceRecord.raw_model_outputs record = QueryResponse.raw_outputs resp /\
             TraceRecord.wrapper_decisions record = QueryResponse.decisions_sequence resp /\
             TraceRecord.final_output record = QueryResponse.final_output resp)
    | Raise _ => trace_file world' = trace_file world
    end.
Proof.
  intros wrapper_name max_calls.
  unfold query, keyword_precheck_blocks.
  fold wrapper_name. fold max_calls.
  destruct (str_not (str_strip (QueryRequest.prompt req))) eqn:Hempty.
  { exists (Ok EMPTY_PROMPT_RESPONSE), world. cbn [negb andb].
    repeat split; try reflexivity; try lia.
    unfold EMPTY_PROMPT_RESPONSE. cbn [QueryResponse.raw_outputs List.length]. lia. }
  cbn [negb andb].
  destruct (get_wrapper wrapper_name (get_wrapper_config cfg wrapper_name))
    as [built|e] eqn:Hbuilt.
  2:{ exists (Raise e), world. repeat split; try reflexivity; lia. }
  assert (Hrun : forall w0 world0,
             trace_file world0 = trace_file world ->
             model_calls world0 = model_calls world ->
             (wrapper_name =? "keyword")
             && KeywordWrapper.any_keyword_in
                  (map str_lower
                     (dict_get (cfg_banned_keywords (get_wrapper_config cfg wrapper_name)) []))
                  (str_lower (str_strip (QueryRequest.prompt req))) = false ->
             exists res world',
               query_run env
                 (dict_get (Config.model_name cfg) "google/gemini-2.5-flash-lite")
                 wrapper_name (get_wrapper_config cfg wrapper_name)
                 (str_strip (QueryRequest.prompt req)) max_calls w0 world0
                 = Some (res, world') /\
               Z.of_nat (model_calls world') - Z.of_nat (model_calls world)
                 <= Z.max 0 max_calls /\
               (model_calls world <= model_calls world')%nat /\
               match res with
               | Ok resp =>
                   QueryResponse.model_call_count resp
                     = Z.of_nat (List.length (QueryResponse.raw_outputs resp)) /\
                   model_calls world'
                     = (model_calls world
                        + List.length (QueryResponse.raw_outputs resp))%nat /\
                   (if (wrapper_name =? "keyword")
                       && KeywordWrapper.any_keyword_in
                            (map str_lower
                               (dict_get
                                  (cfg_banned_keywords
                                     (get_wrapper_config cfg wrapper_name)) []))
                            (str_lower (str_strip (QueryRequest.prompt req)))
                    then QueryResponse.decisions_sequence resp = ["BLOCK"]
                         /\ QueryResponse.raw_outputs resp = []
                    else List.length (QueryResponse.decisions_sequence resp)
                         = List.length (QueryResponse.raw_outputs resp)) /\
                   exists record,
                     trace_file world' = (trace_file world ++ [record])%list /\
                     TraceRecord.total_model_calls record
                       = Z.of_nat (List.length (QueryResponse.raw_outputs resp)) /\
                     TraceRecord.raw_model_outputs record
                       = QueryResponse.raw_outputs resp /\
                     TraceRecord.wrapper_decisions record
                       = QueryResponse.decisions_sequence resp /\
                     TraceRecord.final_output record = QueryResponse.final_output resp
               | Raise _ => trace_file world' = trace_file world
               end).
  { intros w0 world0 Htr Hcalls Hpre. rewrite Hpre.
    destruct (query_run_spec env
                (dict_get (Config.model_name cfg) "google/gemini-2.5-flash-lite")
                wrapper_name (get_wrapper_config cfg wrapper_name)
                (str_strip (QueryRequest.prompt req)) max_calls w0 world0)
      as (res & world' & Hq & Hbound & Hmono & Hres).
    exists res, world'. rewrite Hcalls in Hbound, Hmono.
    split; [exact Hq|]. split; [exact Hbound|]. split; [exact Hmono|].
    destruct res as [resp|e]; [|congruence].
    destruct Hres as (record & Hfile & Htotal & Hraws & Hdecs & Hfinal & Hcount
                      & Hlen & Hmodel & _).
    rewrite Hcalls in Hmodel. rewrite Htr in Hfile.
    repeat split; try assumption. exists record. repeat split; assumption. }
  destruct (wrapper_name =? "keyword") eqn:Hkw.
  2:{ apply Hrun; reflexivity. }
  apply String.eqb_eq in Hkw. rewrite Hkw in Hbuilt.
  rewrite get_wrapper_keyword in Hbuilt. injection Hbuilt as <-.
  cbn [wrapper_reset wrapper_step KeywordWrapper.reset andb].
  unfold KeywordWrapper.step.
  cbn [KeywordWrapper.__init__ KeywordWrapper._keywords].
  rewrite Hkw in *.
  destruct (KeywordWrapper.any_keyword_in _ _) eqn:Hany.
  - cbn [bind fst snd Action_eqb].
    eexists _, _. split; [reflexivity|]. world_simpl.
    cbn [QueryResponse.model_call_count QueryResponse.raw_outputs
         QueryResponse.decisions_sequence QueryResponse.final_output List.length].
    repeat split; try reflexivity; try lia.
    eexists. repeat split.
  - cbn [bind fst snd Action_eqb]. apply Hrun; reflexivity.
Qed.

(** C9.  A prompt that is empty once stripped is answered at once with the
    fixed output and the pseudo-decision SKIP: the model is not called, no
    wrapper is built or stepped (the selected name need not even be a
    registered one), and the world is left as it was. *)
Theorem empty_prompt_short_circuits (env : Env) (cfg : Config.t) (req : QueryRequest.t)
    (world : World) :
  str_strip (QueryRequest.prompt req) = "" ->
  exists resp world',
    query env cfg req world = Some (Ok resp, world') /\
    QueryResponse.final_output resp = "[Empty prompt]" /\
    QueryResponse.wrapper_decision resp = "SKIP" /\
    QueryResponse.model_call_count resp = 0 /\
    QueryResponse.raw_outputs resp = [] /\
    QueryResponse.decisions_sequence resp = [] /\
    model_calls world' = model_calls world /\
    wrapper_steps world' = wrapper_steps world.
Proof.
  intros Hempty. unfold query. rewrite Hempty. cbn [str_not].
  exists EMPTY_PROMPT_RESPONSE, world. repeat split.
Qed.

(** C3.  When the call budget resolved for a request lies in [1, 10], the
    handler returns having called the model at most that many times, and a
    trace record it writes carries as [total_model_calls] the number of
    calls made, which is the length of its raw outputs.  For the
    query-budget wrapper the budget is the caller's [max_queries] when that
    lies in [1, 10] and the configured value (default 2) otherwise. *)
Theorem budget_bounds_model_calls (env : Env) (cfg : Config.t) (req : QueryRequest.t)
    (world : World) :
  let wrapper_name := resolve_wrapper_name cfg req in
  let N := resolve_max_calls cfg req wrapper_name (get_wrapper_config cfg wrapper_name) in
  let configured :=
    dict_get (cfg_max_queries (dict_get (Config.query_budget cfg) empty_config)) 2 in
  1 <= N <= 10 ->
  (wrapper_name = "query_budget" ->
   match QueryRequest.max_queries req with
   | Some user_limit =>
       (1 <= user_limit <= 10 -> N = user_limit) /\
       (~ 1 <= user_limit <= 10 -> N = configured)
   | None => N = configured
   end) /\
  exists res world' made,
    query env cfg req world = Some (res, world') /\
    model_calls world' = (model_calls world + made)%nat /\
    Z.of_nat made <= N /\
    (trace_file world' = trace_file world \/
     exists record,
       trace_file world' = (trace_file world ++ [record])%list /\
       TraceRecord.total_model_calls record = Z.of_nat made /\
       TraceRecord.total_model_calls record
         = Z.of_nat (List.length (TraceRecord.raw_model_outputs record))).
Proof.
  intros wrapper_name N configured HN. split.
  - intros Hname. subst N. rewrite Hname. unfold resolve_max_calls, get_wrapper_config.
    cbn [String.eqb Ascii.eqb Bool.eqb]. fold configured.
    destruct (QueryRequest.max_queries req) as [user_limit|].
    + destruct ((1 <=? user_limit) && (user_limit <=? 10))%Z eqn:Hin.
      * split; [reflexivity|]. intros Hout. exfalso. apply Hout.
        apply andb_prop in Hin. destruct Hin as [H1 H2].
        apply Z.leb_le in H1. apply Z.leb_le in H2. lia.
      * split; [|destruct (cfg_max_queries _); reflexivity].
        intros [H1 H2]. apply Z.leb_le in H1. apply Z.leb_le in H2.
        rewrite H1, H2 in Hin. discriminate.
    + destruct (cfg_max_queries _); reflexivity.
  - destruct (query_cases env cfg req world)
      as (res & world' & Hq & Hbound & Hmono & Hres).
    fold wrapper_name in Hbound. fold N in Hbound.
    exists res, world', (model_calls world' - model_calls world)%nat.
    split; [exact Hq|]. split; [lia|]. split; [lia|].
    destruct res as [resp|e]; [|now left].
    destruct Hres as (_ & Hmodel & _ & Htrace).
    destruct (str_not (str_strip (QueryRequest.prompt req))).
    + left. destruct Htrace as [_ ->]. reflexivity.
    + right. destruct Htrace as (record & Hfile & Htotal & Hraws & _).
      exists record. split; [exact Hfile|].
      rewrite Hraws, Htotal. split; [f_equal; lia | reflexivity].
Qed.

(** C7 (as the code has it).  A response reports as [model_call_count] the
    length of [raw_outputs], which is the number of model calls made.  Its
    [decisions_sequence] has one entry per model call on every path but the
    Keyword pre-check: there it is the single entry BLOCK, with no model
    call and no raw output. *)
Theorem decisions_match_model_calls (env : Env) (cfg : Config.t) (req : QueryRequest.t)
    (world world' : World) (resp : QueryResponse.t) :
  query env cfg req world = Some (Ok resp, world') ->
  QueryResponse.model_call_count resp
    = Z.of_nat (List.length (QueryResponse.raw_outputs resp)) /\
  model_calls world'
    = (model_calls world + List.length (QueryResponse.raw_outputs resp))%nat /\
  (if keyword_precheck_blocks cfg req
   then QueryResponse.decisions_sequence resp = ["BLOCK"]
        /\ QueryResponse.raw_outputs resp = []
        /\ QueryResponse.model_call_count resp = 0
   else List.length (QueryResponse.decisions_sequence resp)
        = List.length (QueryResponse.raw_outputs resp)).
Proof.
  intros Hq.
  destruct (query_cases env cfg req world) as (res & w' & Hq' & _ & _ & Hres).
  rewrite Hq in Hq'. injection Hq' as <- <-.
  destruct Hres as (Hcount & Hmodel & Hdecs & _).
  split; [exact Hcount|]. split; [exact Hmodel|].
  destruct (keyword_precheck_blocks cfg req); [|exact Hdecs].
  destruct Hdecs as [Hd Hr]. repeat split; try assumption.
  rewrite Hcount, Hr. reflexivity.
Qed.

(** ** The query-budget wrapper *)

(** C10.  [QueryBudgetWrapper.step] answers ALLOW with the model output
    unchanged and records [call_index + 1] as its call count.  So a
    query-budget request with a non-empty prompt and a budget of at least 1
    whose first model call succeeds makes that one call only: the decision
    sequence is ALLOW alone and the final output is the first raw output,
    whatever the budget. *)
Theorem query_budget_single_call (env : Env) (cfg : Config.t) (req : QueryRequest.t)
    (world : World) (out : string) :
  let prompt := str_strip (QueryRequest.prompt req) in
  let model_name := dict_get (Config.model_name cfg) "google/gemini-2.5-flash-lite" in
  resolve_wrapper_name cfg req = "query_budget" ->
  prompt <> "" ->
  1 <= resolve_max_calls cfg req "query_budget" (get_wrapper_config cfg "query_budget") ->
  model_complete env (model_calls world) prompt model_name = Ok out ->
  (forall (self : QueryBudgetWrapper.t) (user_prompt model_output : string)
          (call_index : Z),
      exists self',
        QueryBudgetWrapper.step self user_prompt model_output call_index
          = Ok (ALLOW, model_output, self') /\
        QueryBudgetWrapper._calls self' = call_index + 1 /\
        QueryBudgetWrapper._max_queries self' = QueryBudgetWrapper._max_queries self) /\
  exists resp world',
    query env cfg req world = Some (Ok resp, world') /\
    model_calls world' = S (model_calls world) /\
    QueryResponse.model_call_count resp = 1 /\
    QueryResponse.raw_outputs resp = [out] /\
    QueryResponse.decisions_sequence resp = ["ALLOW"] /\
    QueryResponse.wrapper_decision resp = "ALLOW" /\
    QueryResponse.final_output resp = out.
Proof.
  intros prompt model_name Hname Hne Hbudget Hmodel. split.
  { intros self user_prompt model_output call_index.
    eexists. split; [reflexivity|]. split; reflexivity. }
  unfold query. rewrite Hname. fold prompt. fold model_name.
  apply str_not_false in Hne. rewrite Hne.
  cbn [get_wrapper String.eqb Ascii.eqb Bool.eqb wrapper_reset].
  unfold query_run.
  set (N := resolve_max_calls cfg req "query_budget"
              (get_wrapper_config cfg "query_budget")) in *.
  cbn [query_loop call_index wrapper raw_outputs decisions_sequence final_output].
  replace (0 <? N)%Z with true by (symmetry; apply Z.ltb_lt; lia).
  cbn [call_model fst snd]. rewrite Hmodel.
  cbn [wrapper_step QueryBudgetWrapper.step bind fst snd].
  eexists _, _. split; [reflexivity|]. repeat split.
Qed.

(** ** Running out of budget on REQUERY *)

Lemma wrapper_feed_length (outs : list string) :
  forall (w : Wrapper) (prompt : string) (call_index : Z) (actions : list Action)
         (w' : Wrapper),
    wrapper_feed w prompt outs call_index = Ok (actions, w') ->
    List.length actions = List.length outs.
Proof.
  induction outs as [|out outs IH]; intros w prompt idx actions w' Hfeed.
  - injection Hfeed as <- <-. reflexivity.
  - cbn [wrapper_feed] in Hfeed.
    destruct (wrapper_step w prompt out idx) as [[[a t] w1]|e]; [|discriminate].
    cbn [bind fst snd] in Hfeed.
    destruct (wrapper_feed w1 prompt outs (idx + 1)) as [[acts w2]|e] eqn:Hrest;
      [|discriminate].
    cbn [bind fst snd] in Hfeed. injection Hfeed as <- <-.
    cbn [List.length]. f_equal. eapply IH. exact Hrest.
Qed.

Lemma last_all_requery (actions : list Action) (d : string) :
  actions <> [] -> Forall (eq REQUERY) actions ->
  last (map Action_value actions) d = "REQUERY".
Proof.
  intros Hne Hall. destruct (exists_last Hne) as (front & a & ->).
  rewrite map_app. cbn [map]. rewrite last_snoc.
  apply Forall_app in Hall. destruct Hall as [_ Hlast].
  inversion Hlast as [|x l Hx _]; subst. reflexivity.
Qed.

(** The only wrapper that can answer REQUERY is the History one. *)
Lemma wrapper_step_requery (w : Wrapper) (prompt out text : string) (call_index : Z)
    (w' : Wrapper) :
  wrapper_step w prompt out call_index = Ok (REQUERY, text, w') ->
  exists s, w = History s.
Proof.
  destruct w as [s|s|s|s]; cbn [wrapper_step]; intros Hstep.
  - discriminate.
  - unfold KeywordWrapper.step in Hstep.
    destruct (KeywordWrapper.any_keyword_in _ _); discriminate.
  - now exists s.
  - discriminate.
Qed.

Section Exhaustion.

Variables (env : Env) (prompt model_name : string) (max_calls : Z).

(** The loop when every answer is REQUERY up to the budget: it makes each
    of the calls left, keeps every raw output and every decision, and
    leaves with the last raw output as the final output. *)
Lemma query_loop_requery_all (outs : list string) :
  forall (fuel : nat) (run : Run) (world : World) (actions : list Action) (w' : Wrapper),
    outs <> [] ->
    call_index run + Z.of_nat (List.length outs) = max_calls ->
    (List.length outs <= fuel)%nat ->
    (forall i, (i < List.length outs)%nat ->
               model_complete env (model_calls world + i) prompt model_name
                 = Ok (nth i outs "")) ->
    wrapper_feed (wrapper run) prompt outs (call_index run) = Ok (actions, w') ->
    Forall (eq REQUERY) actions ->
    exists world',
      query_loop fuel env prompt model_name max_calls run world
        = Some (Ok {| wrapper := w';
                      raw_outputs := (raw_outputs run ++ outs)%list;
                      decisions_sequence :=
                        (decisions_sequence run ++ map Action_value actions)%list;
                      final_output := last (raw_outputs run ++ outs)%list "";
                      call_index := max_calls |}, world') /\
      trace_file world' = trace_file world /\
      model_calls world' = (model_calls world + List.length outs)%nat.
Proof.
  induction outs as [|out outs IH];
    intros fuel run world actions w' Hne Hidx Hfuel Hmodel Hfeed Hall;
    [congruence|].
  cbn [List.length] in Hidx, Hfuel.
  destruct fuel as [|fuel]; [lia|].
  cbn [query_loop].
  replace (call_index run <? max_calls)%Z with true by (symmetry; apply Z.ltb_lt; lia).
  cbn [call_model fst snd].
  pose proof (Hmodel 0%nat ltac:(cbn [List.length]; lia)) as H0.
  rewrite Nat.add_0_r in H0. cbn [nth] in H0. rewrite H0.
  cbn [wrapper_feed] in Hfeed.
  destruct (wrapper_step (wrapper run) prompt out (call_index run))
    as [[[a t] w1]|e]; [|discriminate].
  cbn [bind fst snd] in Hfeed.
  destruct (wrapper_feed w1 prompt outs (call_index run + 1)) as [[acts w2]|e] eqn:Hrest;
    [|discriminate].
  cbn [bind fst snd] in Hfeed. injection Hfeed as <- <-.
  inversion Hall as [|x l Ha Hall' Heq]. clear Heq. subst a. clear Hall.
  destruct outs as [|out2 outs].
  - (* the last budgeted call *)
    cbn [wrapper_feed] in Hrest. injection Hrest as <- <-.
    cbn [List.length] in Hidx.
    replace (call_index run + 1 >=? max_calls)%Z with true
      by (symmetry; rewrite Z.geb_leb; apply Z.leb_le; lia).
    eexists. split; [|split].
    + cbn [map]. replace (call_index run + 1) with max_calls by lia. reflexivity.
    + reflexivity.
    + world_simpl. cbn [List.length]. lia.
  - cbn [List.length] in Hidx.
    replace (call_index run + 1 >=? max_calls)%Z with false
      by (symmetry; rewrite Z.geb_leb; apply Z.leb_gt; lia).
    edestruct (IH fuel
                 {| wrapper := w1;
                    raw_outputs := (raw_outputs run ++ [out])%list;
                    decisions_sequence :=
                      (decisions_sequence run ++ [Action_value REQUERY])%list;
                    final_output := final_output run;
                    call_index := call_index run + 1 |}
                 (count_step (snd (call_model env prompt model_name world)))
                 acts w2) as (world' & Hloop & Htr & Hcalls).
    + discriminate.
    + world_simpl. cbn [List.length]. lia.
    + cbn [List.length] in *. lia.
    + intros i Hi. world_simpl.
      replace (S (model_calls world) + i)%nat with (model_calls world + S i)%nat by lia.
      rewrite (Hmodel (S i)); [reflexivity | cbn [List.length] in *; lia].
    + exact Hrest.
    + exact Hall'.
    + world_simpl. exists world'. split; [|split].
      * rewrite Hloop. rewrite <- !app_assoc. reflexivity.
      * exact Htr.
      * rewrite Hcalls. cbn [List.length]. lia.
Qed.

End Exhaustion.

(** C4.  When the wrapper answers REQUERY to every one of the [N] budgeted
    calls, so also to the last one, where the incremented call index
    reaches [N], the handler returns the last raw model output as the final
    output; the decision sequence is the real one, REQUERY throughout with
    no ALLOW in it, and [wrapper_decision] is its last entry, REQUERY. *)
Theorem requery_exhaustion_returns_last_raw (env : Env) (cfg : Config.t)
    (req : QueryRequest.t) (world : World) (outs : list string)
    (built w' : Wrapper) (actions : list Action) :
  let wrapper_name := resolve_wrapper_name cfg req in
  let wrapper_config := get_wrapper_config cfg wrapper_name in
  let prompt := str_strip (QueryRequest.prompt req) in
  let model_name := dict_get (Config.model_name cfg) "google/gemini-2.5-flash-lite" in
  let N := resolve_max_calls cfg req wrapper_name wrapper_config in
  prompt <> "" ->
  get_wrapper wrapper_name wrapper_config = Ok built ->
  1 <= N ->
  Z.of_nat (List.length outs) = N ->
  (forall i, (i < List.length outs)%nat ->
             model_complete env (model_calls world + i) prompt model_name
               = Ok (nth i outs "")) ->
  wrapper_feed (wrapper_reset built) prompt outs 0 = Ok (actions, w') ->
  Forall (eq REQUERY) actions ->
  exists resp world',
    query env cfg req world = Some (Ok resp, world') /\
    QueryResponse.final_output resp = last outs "" /\
    QueryResponse.raw_outputs resp = outs /\
    QueryResponse.model_call_count resp = N /\
    QueryResponse.decisions_sequence resp = map Action_value actions /\
    last (QueryResponse.decisions_sequence resp) "" = "REQUERY" /\
    ~ In "ALLOW" (QueryResponse.decisions_sequence resp) /\
    QueryResponse.wrapper_decision resp = "REQUERY".
Proof.
  intros wrapper_name wrapper_config prompt model_name N
         Hne Hbuilt HN Hlen Hmodel Hfeed Hall.
  assert (Houts : outs <> []) by (intros ->; cbn [List.length] in Hlen; lia).
  assert (Hacts : actions <> []).
  { apply wrapper_feed_length in Hfeed. intros ->.
    destruct outs; [congruence | discriminate]. }
  (* the wrapper answers REQUERY, so it is not the Keyword one *)
  assert (Hkw : (wrapper_name =? "keyword") = false).
  { destruct (wrapper_name =? "keyword") eqn:E; [|reflexivity].
    apply String.eqb_eq in E. rewrite E in Hbuilt.
    rewrite get_wrapper_keyword in Hbuilt. injection Hbuilt as <-.
    destruct outs as [|out outs]; [congruence|].
    cbn [wrapper_feed] in Hfeed.
    destruct (wrapper_step _ prompt out 0) as [[[a t] w1]|e] eqn:Hstep; [|discriminate].
    cbn [bind fst snd] in Hfeed.
    destruct (wrapper_feed w1 prompt outs (0 + 1)) as [[acts w2]|e]; [|discriminate].
    cbn [bind fst snd] in Hfeed. injection Hfeed as <- <-.
    inversion Hall as [|x l Ha _]; subst.
    apply wrapper_step_requery in Hstep. destruct Hstep as [s Hs]. discriminate. }
  unfold query. fold wrapper_name. fold wrapper_config. fold prompt. fold model_name.
  fold N.
  apply str_not_false in Hne. rewrite Hne, Hbuilt, Hkw.
  unfold query_run.
  set (run0 := {| wrapper := wrapper_reset built; raw_outputs := [];
                  decisions_sequence := []; final_output := ""; call_index := 0 |}).
  assert (Hidx : call_index run0 + Z.of_nat (List.length outs) = N)
    by (subst run0; world_simpl; lia).
  assert (Hfuel : (List.length outs <= S (Z.to_nat N))%nat) by lia.
  destruct (query_loop_requery_all env prompt model_name N outs
              (S (Z.to_nat N)) run0 world actions w'
              Houts Hidx Hfuel Hmodel Hfeed Hall) as (world' & Hloop & _ & _).
  subst run0.
  rewrite Hloop. world_simpl. cbn [app].
  eexists _, _. split; [reflexivity|].
  cbn [QueryResponse.final_output QueryResponse.raw_outputs
       QueryResponse.model_call_count QueryResponse.decisions_sequence
       QueryResponse.wrapper_decision].
  repeat split.
  - exact Hlen.
  - now apply last_all_requery.
  - intros Hin. apply in_map_iff in Hin. destruct Hin as (a & Ha & Hin).
    rewrite Forall_forall in Hall. specialize (Hall a Hin). subst a. discriminate.
  - now apply last_all_requery.
Qed.

End Properties.

(** * Concrete runs

    The statements above at explicit inputs, and the inputs at which the
    design document and the code part ways.  Strings are handled by the
    ASCII instance [ascii_str]. *)

(** ** Runs that satisfy the hypotheses of the theorems *)

(** The end-to-end scenario of the Keyword wrapper: banned keyword "hack",
    prompt "How do I hack into a website?". *)
Lemma keyword_block_before_model_witness :
  resolve_wrapper_name (example_config ["hack"] 3 2)
    (example_request "How do I hack into a website?" "keyword" None) = "keyword" /\
  str_strip "How do I hack into a website?" <> "" /\
  str_in (str_lower "hack") (str_lower (str_strip "How do I hack into a website?")) = true /\
  exists resp world',
    query (stub_env ["unused"]) (example_config ["hack"] 3 2)
      (example_request "How do I hack into a website?" "keyword" None) world0
      = Some (Ok resp, world') /\
    QueryResponse.final_output resp = "[Blocked by keyword wrapper]" /\
    QueryResponse.decisions_sequence resp = ["BLOCK"] /\
    QueryResponse.model_call_count resp = 0 /\
    model_calls world' = 0%nat.
Proof.
  split; [reflexivity|]. split; [discriminate|]. split; [reflexivity|].
  destruct (keyword_block_before_model (stub_env ["unused"]) (example_config ["hack"] 3 2)
              (example_request "How do I hack into a website?" "keyword" None)
              world0 "hack")
    as (resp & world' & Hq & Hfinal & _ & Hdecs & Hcount & _ & Hcalls & _).
  - reflexivity.
  - left. reflexivity.
  - discriminate.
  - reflexivity.
  - exists resp, world'. repeat split; assumption.
Defined.

(** The same non-empty output twice in a row, on a [k = 3] wrapper: ALLOW
    with the output as it came, then REQUERY; a blank output is REQUERY. *)
Lemma history_step_spec_witness :
  HistoryWrapper.step
    (HistoryWrapper.__init__
       {| cfg_banned_keywords := None; cfg_k := Some 3; cfg_max_queries := None |})
    "hello" " same " 0
  = Ok (ALLOW, " same ",
        HistoryWrapper.set_buffer
          (HistoryWrapper.__init__
             {| cfg_banned_keywords := None; cfg_k := Some 3; cfg_max_queries := None |})
          ["same"]) /\
  HistoryWrapper.step
    (HistoryWrapper.set_buffer
       (HistoryWrapper.__init__
          {| cfg_banned_keywords := None; cfg_k := Some 3; cfg_max_queries := None |})
       ["same"])
    "hello" " same " 1
  = Ok (REQUERY, "",
        HistoryWrapper.set_buffer
          (HistoryWrapper.__init__
             {| cfg_banned_keywords := None; cfg_k := Some 3; cfg_max_queries := None |})
          ["same"]) /\
  HistoryWrapper.step
    (HistoryWrapper.__init__
       {| cfg_banned_keywords := None; cfg_k := Some 3; cfg_max_queries := None |})
    "hello" "   " 0
  = Ok (REQUERY, "",
        HistoryWrapper.__init__
          {| cfg_banned_keywords := None; cfg_k := Some 3; cfg_max_queries := None |}).
Proof.
  split; [|split].
  - assert (Hne : str_strip " same " <> "") by discriminate.
    assert (Hnew : ~ In (str_strip " same ") []) by (intros []).
    assert (Hfit : Z.of_nat (List.length ([] ++ [str_strip " same "])) <= 3)
      by (vm_compute; discriminate).
    exact (proj1 (proj2 (proj2
      (history_step_spec
         (HistoryWrapper.__init__
            {| cfg_banned_keywords := None; cfg_k := Some 3; cfg_max_queries := None |})
         "hello" " same " 0))) Hne Hnew Hfit).
  - assert (Hne : str_strip " same " <> "") by discriminate.
    assert (Hold : In (str_strip " same ") ["same"]) by (left; reflexivity).
    exact (proj1 (proj2
      (history_step_spec
         (HistoryWrapper.set_buffer
            (HistoryWrapper.__init__
               {| cfg_banned_keywords := None; cfg_k := Some 3;
                  cfg_max_queries := None |})
            ["same"])
         "hello" " same " 1)) Hne Hold).
  - exact (proj1
      (history_step_spec
         (HistoryWrapper.__init__
            {| cfg_banned_keywords := None; cfg_k := Some 3; cfg_max_queries := None |})
         "hello" "   " 0) eq_refl).
Defined.

(** A query-budget request whose caller asks for five calls. *)
Lemma budget_bounds_model_calls_witness :
  1 <= resolve_max_calls (example_config [] 3 2)
         (example_request "hello" "query_budget" (Some 5)) "query_budget"
         (get_wrapper_config (example_config [] 3 2) "query_budget") <= 10 /\
  exists res world' made,
    query (stub_env ["a"; "b"]) (example_config [] 3 2)
      (example_request "hello" "query_budget" (Some 5)) world0 = Some (res, world') /\
    model_calls world' = (model_calls world0 + made)%nat /\
    Z.of_nat made <= 5.
Proof.
  split; [vm_compute; split; discriminate|].
  destruct (budget_bounds_model_calls (stub_env ["a"; "b"]) (example_config [] 3 2)
              (example_request "hello" "query_budget" (Some 5)) world0)
    as (_ & res & world' & made & Hq & Hcalls & Hbound & _).
  - vm_compute. split; discriminate.
  - exists res, world', made. split; [exact Hq|]. split; [exact Hcalls | exact Hbound].
Defined.

(** A History request with [k = 0], so a budget of two calls, whose model
    answers with blank text both times. *)
Lemma requery_exhaustion_returns_last_raw_witness :
  str_strip "hello" <> "" /\
  wrapper_feed (wrapper_reset (History (HistoryWrapper.__init__
                  {| cfg_banned_keywords := None; cfg_k := Some 0;
                     cfg_max_queries := None |})))
    "hello" [""; "  "] 0
    = Ok ([REQUERY; REQUERY],
          History (HistoryWrapper.__init__
                     {| cfg_banned_keywords := None; cfg_k := Some 0;
                        cfg_max_queries := None |})) /\
  exists resp world',
    query (stub_env [""; "  "]) (example_config [] 0 2)
      (example_request "hello" "history" None) world0 = Some (Ok resp, world') /\
    QueryResponse.final_output resp = "  " /\
    QueryResponse.decisions_sequence resp = ["REQUERY"; "REQUERY"] /\
    QueryResponse.wrapper_decision resp = "REQUERY".
Proof.
  split; [discriminate|]. split; [reflexivity|].
  destruct (requery_exhaustion_returns_last_raw (stub_env [""; "  "])
              (example_config [] 0 2) (example_request "hello" "history" None) world0
              [""; "  "]
              (History (HistoryWrapper.__init__
                          {| cfg_banned_keywords := None; cfg_k := Some 0;
                             cfg_max_queries := None |}))
              (History (HistoryWrapper.__init__
                          {| cfg_banned_keywords := None; cfg_k := Some 0;
                             cfg_max_queries := None |}))
              [REQUERY; REQUERY])
    as (resp & world' & Hq & Hfinal & _ & _ & Hdecs & _ & _ & Hlast).
  - discriminate.
  - reflexivity.
  - vm_compute. discriminate.
  - reflexivity.
  - intros i Hi. destruct i as [|[|i]]; [reflexivity | reflexivity |].
    exfalso. cbn [List.length] in Hi.
    apply PeanoNat.Nat.succ_lt_mono in Hi. apply PeanoNat.Nat.succ_lt_mono in Hi.
    exact (PeanoNat.Nat.nlt_0_r i Hi).
  - reflexivity.
  - repeat constructor.
  - exists resp, world'. repeat split; assumption.
Defined.

(** The end-to-end scenario of the History wrapper: [k = 3] and a model
    that answers nothing, then blanks, then "ok". *)
Lemma decisions_match_model_calls_witness :
  exists resp world',
    query (stub_env [""; "   "; "ok"]) (example_config [] 3 2)
      (example_request "hello" "history" None) world0 = Some (Ok resp, world') /\
    QueryResponse.raw_outputs resp = [""; "   "; "ok"] /\
    QueryResponse.decisions_sequence resp = ["REQUERY"; "REQUERY"; "ALLOW"] /\
    QueryResponse.final_output resp = "ok" /\
    QueryResponse.model_call_count resp = 3 /\
    List.length (QueryResponse.decisions_sequence resp)
      = List.length (QueryResponse.raw_outputs resp).
Proof.
  eexists _, _. split; [vm_compute; reflexivity|].
  repeat (split; [reflexivity|]).
  exact (proj2 (proj2
    (decisions_match_model_calls (stub_env [""; "   "; "ok"]) (example_config [] 3 2)
       (example_request "hello" "history" None) world0 _ _ eq_refl))).
Defined.

(** The empty-prompt scenario: the input of three spaces. *)
Lemma empty_prompt_short_circuits_witness :
  str_strip "   " = "" /\
  exists resp world',
    query (stub_env ["unused"]) (example_config ["hack"] 3 2)
      (example_request "   " "keyword" None) world0 = Some (Ok resp, world') /\
    QueryResponse.final_output resp = "[Empty prompt]" /\
    QueryResponse.wrapper_decision resp = "SKIP" /\
    QueryResponse.model_call_count resp = 0.
Proof.
  split; [reflexivity|].
  destruct (empty_prompt_short_circuits (stub_env ["unused"]) (example_config ["hack"] 3 2)
              (example_request "   " "keyword" None) world0)
    as (resp & world' & Hq & Hfinal & Hdec & Hcount & _).
  - reflexivity.
  - exists resp, world'. repeat split; assumption.
Defined.

(** A query-budget request with the largest budget a caller may ask for. *)
Lemma query_budget_single_call_witness :
  resolve_max_calls (example_config [] 3 2)
    (example_request "hello" "query_budget" (Some 10)) "query_budget"
    (get_wrapper_config (example_config [] 3 2) "query_budget") = 10 /\
  exists resp world',
    query (stub_env ["first"; "second"]) (example_config [] 3 2)
      (example_request "hello" "query_budget" (Some 10)) world0
      = Some (Ok resp, world') /\
    model_calls world' = 1%nat /\
    QueryResponse.decisions_sequence resp = ["ALLOW"] /\
    QueryResponse.final_output resp = "first".
Proof.
  split; [reflexivity|].
  destruct (query_budget_single_call (stub_env ["first"; "second"])
              (example_config [] 3 2)
              (example_request "hello" "query_budget" (Some 10)) world0 "first")
    as (_ & resp & world' & Hq & Hcalls & _ & _ & Hdecs & _ & Hfinal).
  - reflexivity.
  - discriminate.
  - vm_compute. discriminate.
  - reflexivity.
  - exists resp, world'. repeat split; assumption.
Defined.

(** ** Where the design document and the code part ways *)

(** A request that is answered, with a prompt that is not empty once
    stripped, appends exactly one record to the trace file; the Keyword
    pre-check, which also returns early, is among these paths. *)
Lemma answered_request_writes_one_record `{PyStr} (env : Env) (cfg : Config.t)
    (req : QueryRequest.t) (world world' : World) (resp : QueryResponse.t) :
  str_strip (QueryRequest.prompt req) <> "" ->
  query env cfg req world = Some (Ok resp, world') ->
  exists record, trace_file world' = (trace_file world ++ [record])%list.
Proof.
  intros Hne Hq.
  destruct (query_cases env cfg req world) as (res & w' & Hq' & _ & _ & Hres).
  rewrite Hq in Hq'. injection Hq' as <- <-.
  destruct Hres as (_ & _ & _ & Htrace).
  apply str_not_false in Hne. rewrite Hne in Htrace.
  destruct Htrace as (record & Hfile & _). now exists record.
Qed.

(** C6.  The input of three spaces, which the handler explicitly skips:
    the response is the SKIP one, and the trace file afterwards is the
    trace file before, so no record is written for this request. *)
Theorem empty_prompt_writes_no_trace (env : Env) (cfg : Config.t) (world : World) :
  exists resp world',
    query env cfg (example_request "   " "noop" None) world = Some (Ok resp, world') /\
    QueryResponse.wrapper_decision resp = "SKIP" /\
    QueryResponse.final_output resp = "[Empty prompt]" /\
    trace_file world' = trace_file world /\
    ~ exists record, trace_file world' = (trace_file world ++ [record])%list.
Proof.
  exists EMPTY_PROMPT_RESPONSE, world. repeat split.
  intros [record Hfile].
  apply (f_equal (@List.length _)) in Hfile.
  rewrite length_app in Hfile. cbn [List.length] in Hfile. lia.
Qed.

(** The banned keyword "kill " ends in a space and the prompt
    "how to kill " contains it, but the handler strips the prompt before
    the wrapper sees it: the request is allowed and the model is called. *)
Lemma keyword_block_counterexample :
  In "kill "
    (dict_get (cfg_banned_keywords
                 (get_wrapper_config (example_config ["kill "] 3 2) "keyword")) []) /\
  str_in (str_lower "kill ") (str_lower "how to kill ") = true /\
  exists resp world',
    query (stub_env ["model text"]) (example_config ["kill "] 3 2)
      (example_request "how to kill " "keyword" None) world0 = Some (Ok resp, world') /\
    QueryResponse.wrapper_decision resp = "ALLOW" /\
    QueryResponse.decisions_sequence resp = ["ALLOW"] /\
    QueryResponse.final_output resp = "model text" /\
    QueryResponse.model_call_count resp = 1 /\
    model_calls world' = 1%nat.
Proof.
  split; [left; reflexivity|]. split; [reflexivity|].
  eexists _, _. split; [vm_compute; reflexivity|]. repeat split.
Qed.

(** The empty string as a banned keyword is in every prompt, the empty one
    too; the empty prompt is skipped all the same. *)
Lemma keyword_empty_prompt_skipped :
  str_in (str_lower "") (str_lower "") = true /\
  query (stub_env ["model text"]) (example_config [""] 3 2)
    (example_request "" "keyword" None) world0
    = Some (Ok EMPTY_PROMPT_RESPONSE, world0).
Proof. split; reflexivity. Qed.

(** A negative [k] and a zero [max_queries] are stored as they are.  With
    the budget 0 the loop is not entered: the response has no decision, an
    empty final output and ALLOW as its [wrapper_decision]. *)
Lemma config_clamping_counterexample :
  ~ 0 <= HistoryWrapper._k
           (HistoryWrapper.__init__
              {| cfg_banned_keywords := None; cfg_k := Some (-1);
                 cfg_max_queries := None |}) /\
  ~ 1 <= QueryBudgetWrapper._max_queries
           (QueryBudgetWrapper.__init__
              {| cfg_banned_keywords := None; cfg_k := None;
                 cfg_max_queries := Some 0 |}) /\
  exists resp world',
    query (stub_env ["model text"]) (example_config [] 3 0)
      (example_request "hello" "query_budget" None) world0 = Some (Ok resp, world') /\
    QueryResponse.model_call_count resp = 0 /\
    QueryResponse.decisions_sequence resp = [] /\
    QueryResponse.wrapper_decision resp = "ALLOW" /\
    QueryResponse.final_output resp = "".
Proof.
  split; [cbn; lia|]. split; [cbn; lia|].
  eexists _, _. split; [vm_compute; reflexivity|]. repeat split.
Qed.

(** The Keyword pre-check answers with one decision and no model call. *)
Lemma decisions_length_counterexample :
  exists resp world',
    query (stub_env ["unused"]) (example_config ["hack"] 3 2)
      (example_request "How do I hack into a website?" "keyword" None) world0
      = Some (Ok resp, world') /\
    List.length (QueryResponse.decisions_sequence resp) = 1%nat /\
    List.length (QueryResponse.raw_outputs resp) = 0%nat /\
    QueryResponse.model_call_count resp = 0 /\
    model_calls world' = 0%nat.
Proof.
  eexists _, _. split; [vm_compute; reflexivity|]. repeat split.
Qed.

(** With [k = -1] the buffer is empty after every step, and its length, 0,
    is above [k]. *)
Lemma history_capacity_counterexample :
  exists actions self',
    history_steps
      (HistoryWrapper.reset
         (HistoryWrapper.__init__
            {| cfg_banned_keywords := None; cfg_k := Some (-1);
               cfg_max_queries := None |}))
      [("prompt", "answer", 0)] = Ok (actions, self') /\
    actions = [ALLOW] /\
    HistoryWrapper._k self' = -1 /\
    HistoryWrapper._buffer self' = [] /\
    ~ Z.of_nat (List.length (HistoryWrapper._buffer self')) <= HistoryWrapper._k self'.
Proof.
  eexists _, _. split; [vm_compute; reflexivity|].
  repeat split. cbn. lia.
Qed.

(** * Further properties of the wrappers and of the handler *)

Section WrapperProperties.

Context `{PyStr}.

(** ** Substring search *)

Lemma prefix_spec (a b : string) :
  String.prefix a b = true <-> exists post, b = a ++ post.
Proof.
  revert b. induction a as [|c a IH]; intros b.
  - destruct b; (split; [intros _; eexists; reflexivity | reflexivity]).
  - destruct b as [|d b]; cbn [String.prefix].
    + split; [discriminate | intros [post Hpost]; discriminate].
    + destruct (ascii_dec c d) as [->|Hcd].
      * rewrite IH. split; intros [post Hpost]; exists post.
        -- cbn [append]. now rewrite <- Hpost.
        -- cbn [append] in Hpost. now injection Hpost.
      * split; [discriminate|]. intros [post Hpost].
        cbn [append] in Hpost. injection Hpost as Hc _. congruence.
Qed.

Lemma str_in_unfold (needle hay : string) :
  str_in needle hay
  = if String.prefix needle hay then true
    else match hay with
         | EmptyString => false
         | String _ rest => str_in needle rest
         end.
Proof. destruct hay; reflexivity. Qed.

(** [needle in hay] holds exactly when [hay] is some text, then [needle],
    then some text. *)
Lemma str_in_spec (needle hay : string) :
  str_in needle hay = true <-> exists pre post, hay = pre ++ needle ++ post.
Proof.
  induction hay as [|c hay IH]; rewrite str_in_unfold.
  - destruct (String.prefix needle "") eqn:Hp.
    + apply prefix_spec in Hp. destruct Hp as [post Hpost].
      split; [intros _; now exists "", post | reflexivity].
    + split; [discriminate|]. intros (pre & post & Heq).
      destruct pre; [|discriminate]. cbn [append] in Heq.
      assert (String.prefix needle "" = true) by (apply prefix_spec; now exists post).
      congruence.
  - destruct (String.prefix needle (String c hay)) eqn:Hp.
    + apply prefix_spec in Hp. destruct Hp as [post Hpost].
      split; [intros _; now exists "", post | reflexivity].
    + rewrite IH. split.
      * intros (pre & post & Heq). exists (String c pre), post.
        cbn [append]. now rewrite Heq.
      * intros (pre & post & Heq). destruct pre as [|d pre].
        -- cbn [append] in Heq.
           assert (String.prefix needle (String c hay) = true)
             by (apply prefix_spec; now exists post).
           congruence.
        -- cbn [append] in Heq. injection Heq as _ Heq. now exists pre, post.
Qed.

(** ** The Keyword wrapper *)

(** X1.  [KeywordWrapper.step] answers BLOCK with the fixed message exactly
    when the lower-cased prompt reads: some text, one of the stored
    keywords, some text.  Otherwise it answers ALLOW with the model output
    as it came.  Either way the instance is unchanged, and the model output
    and the call index play no part in the decision. *)
Theorem keyword_step_blocks_iff (self : KeywordWrapper.t)
    (user_prompt model_output : string) (call_index : Z) :
  ((exists kw pre post,
       In kw (KeywordWrapper._keywords self) /\
       str_lower user_prompt = pre ++ kw ++ post) /\
   KeywordWrapper.step self user_prompt model_output call_index
     = Ok (BLOCK, "[Blocked by keyword wrapper]", self))
  \/
  ((~ exists kw pre post,
        In kw (KeywordWrapper._keywords self) /\
        str_lower user_prompt = pre ++ kw ++ post) /\
   KeywordWrapper.step self user_prompt model_output call_index
     = Ok (ALLOW, model_output, self)).
Proof.
  unfold KeywordWrapper.step.
  destruct (KeywordWrapper.any_keyword_in (KeywordWrapper._keywords self)
              (str_lower user_prompt)) eqn:Hany.
  - left. split; [|reflexivity].
    apply any_keyword_in_true in Hany. destruct Hany as (kw & Hin & Hsub).
    apply str_in_spec in Hsub. destruct Hsub as (pre & post & Heq).
    now exists kw, pre, post.
  - right. split; [|reflexivity].
    intros (kw & pre & post & Hin & Heq).
    assert (KeywordWrapper.any_keyword_in (KeywordWrapper._keywords self)
              (str_lower user_prompt) = true); [|congruence].
    apply any_keyword_in_true. exists kw. split; [exact Hin|].
    apply str_in_spec. now exists pre, post.
Qed.

(** ** The History wrapper *)

Lemma history_step_nodup (self : HistoryWrapper.t) (user_prompt model_output : string)
    (call_index : Z) (action : Action) (text : string) (self' : HistoryWrapper.t) :
  NoDup (HistoryWrapper._buffer self) ->
  HistoryWrapper.step self user_prompt model_output call_index
    = Ok (action, text, self') ->
  NoDup (HistoryWrapper._buffer self').
Proof.
  intros Hnd. rewrite history_step_eq. cbv zeta.
  destruct (str_not (str_strip model_output)) eqn:Hempty;
    [cbn [orb]; intros E; injection E as <- <- <-; exact Hnd|].
  destruct (list_in (str_strip model_output) (HistoryWrapper._buffer self)) eqn:Hin;
    [cbn [orb]; intros E; injection E as <- <- <-; exact Hnd|].
  cbn [orb]. intros E. injection E as <- <- <-.
  cbn [HistoryWrapper.set_buffer HistoryWrapper._buffer].
  apply list_in_false in Hin.
  assert (Happ : NoDup (HistoryWrapper._buffer self ++ [str_strip model_output])).
  { apply NoDup_app; [exact Hnd | repeat constructor; intros [] |].
    intros x Hx [<-|[]]. exact (Hin Hx). }
  destruct (Z.of_nat _ >? _)%Z; [|exact Happ].
  destruct (HistoryWrapper._buffer self ++ [str_strip model_output])%list;
    [constructor | now inversion Happ].
Qed.

(** X2.  After [reset], whatever the calls of [step], the buffer never
    holds the same text twice. *)
Theorem history_buffer_no_duplicates (self : HistoryWrapper.t) (calls : list step_call) :
  exists actions self',
    history_steps (HistoryWrapper.reset self) calls = Ok (actions, self') /\
    NoDup (HistoryWrapper._buffer self').
Proof.
  assert (Hgen : forall calls s, NoDup (HistoryWrapper._buffer s) ->
            exists actions s',
              history_steps s calls = Ok (actions, s') /\
              NoDup (HistoryWrapper._buffer s')).
  { clear. intros calls.
    induction calls as [|[[user_prompt model_output] call_index] calls IH];
      intros s Hnd.
    - exists [], s. split; [reflexivity | exact Hnd].
    - destruct (wrapper_step_total (History s) user_prompt model_output call_index)
        as (action & text & w' & Hstep).
      cbn [wrapper_step] in Hstep.
      destruct (HistoryWrapper.step s user_prompt model_output call_index)
        as [[[a t] s1]|e] eqn:Hs; [|discriminate].
      pose proof (history_step_nodup _ _ _ _ _ _ _ Hnd Hs) as Hnd1.
      destruct (IH s1 Hnd1) as (actions & s' & Hsteps & Hnd').
      exists (a :: actions), s'. cbn [history_steps]. rewrite Hs.
      cbn [bind fst snd]. rewrite Hsteps. split; [reflexivity | exact Hnd']. }
  apply Hgen. cbn [HistoryWrapper.reset HistoryWrapper._buffer]. constructor.
Qed.

(** X3.  With [k >= 1], an output that has just been allowed is refused
    when it comes again: the next call whose stripped output is the same
    text is answered REQUERY, and the instance stays as it is. *)
Theorem history_repeat_is_requeried (self self' : HistoryWrapper.t)
    (user_prompt model_output text : string) (call_index : Z)
    (user_prompt2 model_output2 : string) (call_index2 : Z) :
  1 <= HistoryWrapper._k self ->
  HistoryWrapper.step self user_prompt model_output call_index
    = Ok (ALLOW, text, self') ->
  str_strip model_output2 = str_strip model_output ->
  HistoryWrapper.step self' user_prompt2 model_output2 call_index2
    = Ok (REQUERY, "", self').
Proof.
  intros Hk Hstep Hsame.
  rewrite history_step_eq in Hstep. cbv zeta in Hstep.
  destruct (str_not (str_strip model_output)) eqn:Hempty; [discriminate|].
  destruct (list_in (str_strip model_output) (HistoryWrapper._buffer self)) eqn:Hin;
    [discriminate|].
  cbn [orb] in Hstep. injection Hstep as _ <-.
  rewrite history_step_eq. cbv zeta. rewrite Hsame, Hempty. cbn [orb].
  replace (list_in _ _) with true; [reflexivity|].
  symmetry. apply list_in_true.
  cbn [HistoryWrapper.set_buffer HistoryWrapper._buffer].
  destruct (Z.of_nat _ >? _)%Z eqn:Hgt.
  - apply Z.gtb_gt in Hgt. rewrite length_app in Hgt. cbn [List.length] in Hgt.
    destruct (HistoryWrapper._buffer self) as [|b bs]; cbn [List.length] in Hgt; [lia|].
    cbn [app tl]. apply in_or_app. right. now left.
  - apply in_or_app. right. now left.
Qed.

(** X4.  With [k <= 0] nothing is remembered: on an empty buffer every
    output that is not blank is answered ALLOW and the buffer is empty
    again, so a repeated output is allowed each time. *)
Theorem history_nonpositive_k_forgets (self : HistoryWrapper.t)
    (user_prompt model_output : string) (call_index : Z) :
  HistoryWrapper._k self <= 0 ->
  HistoryWrapper._buffer self = [] ->
  str_strip model_output <> "" ->
  HistoryWrapper.step self user_prompt model_output call_index
    = Ok (ALLOW, model_output, self).
Proof.
  intros Hk Hbuf Hne. rewrite history_step_eq. cbv zeta.
  apply str_not_false in Hne. rewrite Hne, Hbuf. cbn [list_in existsb orb app List.length].
  replace (Z.of_nat 1 >? HistoryWrapper._k self)%Z with true
    by (symmetry; apply Z.gtb_gt; lia).
  cbn [tl]. destruct self as [c k b]. cbn in Hbuf. subst b. reflexivity.
Qed.

(** ** Every wrapper *)

(** What a step can answer: ALLOW with the model output as it came, BLOCK
    with the fixed message (the Keyword wrapper only), or REQUERY with no
    text (the History wrapper only); never MODIFY. *)
Lemma wrapper_step_answers (w : Wrapper) (user_prompt model_output : string)
    (call_index : Z) (action : Action) (text : string) (w' : Wrapper) :
  wrapper_step w user_prompt model_output call_index = Ok (action, text, w') ->
  (action = ALLOW /\ text = model_output) \/
  (action = BLOCK /\ text = KeywordWrapper.BLOCK_MESSAGE /\ exists s, w = Keyword s) \/
  (action = REQUERY /\ text = "" /\ exists s, w = History s).
Proof.
  destruct w as [s|s|s|s]; cbn [wrapper_step].
  - intros E. injection E as <- <- <-. now left.
  - unfold KeywordWrapper.step. destruct (KeywordWrapper.any_keyword_in _ _);
      intros E; injection E as <- <- <-.
    + right. left. repeat split. now exists s.
    + now left.
  - rewrite history_step_eq. cbv zeta.
    destruct (str_not _ || list_in _ _); intros E; injection E as <- <- <-.
    + right. right. repeat split. now exists s.
    + now left.
  - intros E. injection E as <- <- <-. now left.
Qed.

Lemma wrapper_step_reset (w : Wrapper) (user_prompt model_output : string)
    (call_index : Z) (action : Action) (text : string) (w' : Wrapper) :
  wrapper_step w user_prompt model_output call_index = Ok (action, text, w') ->
  wrapper_reset w' = wrapper_reset w.
Proof.
  destruct w as [s|s|s|s]; cbn [wrapper_step].
  - intros E. injection E as <- <- <-. reflexivity.
  - unfold KeywordWrapper.step. destruct (KeywordWrapper.any_keyword_in _ _);
      intros E; injection E as <- <- <-; reflexivity.
  - rewrite history_step_eq. cbv zeta.
    destruct (str_not _ || list_in _ _); intros E; injection E as <- <- <-; reflexivity.
  - intros E. injection E as <- <- <-. reflexivity.
Qed.

(** X5.  [reset] undoes whatever a run has done to a wrapper: feeding a
    wrapper any outputs never raises, and resetting it afterwards gives the
    wrapper that resetting it before would have given.  A replay after
    [reset] therefore starts from the same state, and [get_state] right
    after [reset] is the same snapshot. *)
Theorem reset_restores_wrapper (w : Wrapper) (prompt : string) (outs : list string)
    (call_index : Z) :
  exists actions w',
    wrapper_feed w prompt outs call_index = Ok (actions, w') /\
    wrapper_reset w' = wrapper_reset w /\
    wrapper_get_state (wrapper_reset w') = wrapper_get_state (wrapper_reset w) /\
    forall prompt2 outs2 call_index2,
      wrapper_feed (wrapper_reset w') prompt2 outs2 call_index2
      = wrapper_feed (wrapper_reset w) prompt2 outs2 call_index2.
Proof.
  revert w call_index. induction outs as [|out outs IH]; intros w call_index.
  - exists [], w. repeat split.
  - destruct (wrapper_step_total w prompt out call_index) as (a & t & w1 & Hstep).
    destruct (IH w1 (call_index + 1)) as (actions & w' & Hfeed & Hreset & _ & _).
    exists (a :: actions), w'. cbn [wrapper_feed]. rewrite Hstep. cbn [bind fst snd].
    rewrite Hfeed. cbn [bind fst snd].
    assert (Hr : wrapper_reset w' = wrapper_reset w)
      by (rewrite Hreset; exact (wrapper_step_reset _ _ _ _ _ _ _ Hstep)).
    split; [reflexivity|]. split; [exact Hr|]. rewrite Hr. split; reflexivity.
Qed.

End WrapperProperties.

Ltac fields_cbn :=
  cbn [call_model count_step log_trace trace_file model_calls wrapper_steps fst snd
       wrapper raw_outputs decisions_sequence final_output call_index
       QueryResponse.final_output QueryResponse.wrapper_decision
       QueryResponse.decision_summary QueryResponse.model_call_count
       QueryResponse.raw_outputs QueryResponse.decisions_sequence
       TraceRecord.timestamp TraceRecord.model_name TraceRecord.wrapper_name
       TraceRecord.wrapper_config TraceRecord.user_prompt
       TraceRecord.raw_model_outputs TraceRecord.wrapper_decisions
       TraceRecord.final_output TraceRecord.total_model_calls
       TraceRecord.wrapper_state] in *.

Section HandlerProperties.

Context `{PyStr}.

(** ** The paths through the handler *)

Lemma wrapper_step_history (s : HistoryWrapper.t) (user_prompt model_output : string)
    (call_index : Z) (action : Action) (text : string) (w' : Wrapper) :
  wrapper_step (History s) user_prompt model_output call_index = Ok (action, text, w') ->
  exists s', w' = History s'.
Proof.
  cbn [wrapper_step]. rewrite history_step_eq. cbv zeta.
  destruct (str_not _ || list_in _ _); intros E; injection E as <- <- <-;
    eexists; reflexivity.
Qed.

(** What [query_run] returns, from what its loop returns. *)
Lemma query_run_unfold (env : Env) (model_name wrapper_name : string)
    (wrapper_config : WrapperConfig) (prompt : string) (max_calls : Z)
    (wrapper0 : Wrapper) (world world' : World) (res : result QueryResponse.t) :
  query_run env model_name wrapper_name wrapper_config prompt max_calls wrapper0 world
    = Some (res, world') ->
  let run0 := {| wrapper := wrapper0; raw_outputs := []; decisions_sequence := [];
                 final_output := ""; call_index := 0 |} in
  (exists e,
      query_loop (S (Z.to_nat max_calls)) env prompt model_name max_calls run0 world
        = Some (Raise e, world') /\
      res = Raise e) \/
  (exists run world1,
      query_loop (S (Z.to_nat max_calls)) env prompt model_name max_calls run0 world
        = Some (Ok run, world1) /\
      world' = log_trace (utcnow_isoformat env) model_name wrapper_name wrapper_config
                 prompt (raw_outputs run) (decisions_sequence run) (final_output run)
                 (Z.of_nat (List.length (raw_outputs run)))
                 (wrapper_get_state (wrapper run)) world1 /\
      res = Ok {| QueryResponse.final_output := final_output run;
                  QueryResponse.wrapper_decision :=
                    last (decisions_sequence run) (Action_value ALLOW);
                  QueryResponse.decision_summary :=
                    summarize wrapper_name
                      (last (decisions_sequence run) (Action_value ALLOW))
                      (decisions_sequence run)
                      (Z.of_nat (List.length (raw_outputs run))) max_calls;
                  QueryResponse.model_call_count :=
                    Z.of_nat (List.length (raw_outputs run));
                  QueryResponse.raw_outputs := raw_outputs run;
                  QueryResponse.decisions_sequence := decisions_sequence run |}).
Proof.
  intros Hq run0. unfold query_run in Hq. fold run0 in Hq.
  destruct (query_loop (S (Z.to_nat max_calls)) env prompt model_name max_calls run0 world)
    as [[[run|e] world1]|]; [| |discriminate].
  - right. exists run, world1. injection Hq as <- <-. repeat split.
  - left. exists e. injection Hq as <- <-. split; reflexivity.
Qed.

(** The four ways through [query]: the empty prompt, the unregistered
    wrapper, the Keyword pre-check that blocks, and the loop.  The loop
    starts from the freshly built and reset wrapper; when that is the
    Keyword wrapper, none of its keywords is in the prompt. *)
Lemma query_paths (env : Env) (cfg : Config.t) (req : QueryRequest.t) (world : World) :
  let wrapper_name := resolve_wrapper_name cfg req in
  let wrapper_config := get_wrapper_config cfg wrapper_name in
  let prompt := str_strip (QueryRequest.prompt req) in
  let model_name := dict_get (Config.model_name cfg) "google/gemini-2.5-flash-lite" in
  let max_calls := resolve_max_calls cfg req wrapper_name wrapper_config in
  (str_not prompt = true /\
   query env cfg req world = Some (Ok EMPTY_PROMPT_RESPONSE, world)) \/
  (str_not prompt = false /\
   exists e, get_wrapper wrapper_name wrapper_config = Raise e /\
             query env cfg req world = Some (Raise e, world)) \/
  (str_not prompt = false /\ keyword_precheck_blocks cfg req = true /\
   wrapper_name = "keyword" /\
   query env cfg req world
     = Some (Ok precheck_response,
             log_trace (utcnow_isoformat env) model_name wrapper_name wrapper_config
               prompt [] [Action_value BLOCK] KeywordWrapper.BLOCK_MESSAGE 0
               (wrapper_get_state (Keyword (KeywordWrapper.__init__ wrapper_config)))
               (count_step world))) \/
  (str_not prompt = false /\ keyword_precheck_blocks cfg req = false /\
   exists built world0,
     get_wrapper wrapper_name wrapper_config = Ok built /\
     trace_file world0 = trace_file world /\
     model_calls world0 = model_calls world /\
     query env cfg req world
       = query_run env model_name wrapper_name wrapper_config prompt max_calls
           (wrapper_reset built) world0 /\
     forall s, wrapper_reset built = Keyword s ->
               KeywordWrapper.any_keyword_in (KeywordWrapper._keywords s)
                 (str_lower prompt) = false).
Proof.
  intros wrapper_name wrapper_config prompt model_name max_calls.
  unfold query, keyword_precheck_blocks.
  fold wrapper_name. fold wrapper_config. fold prompt. fold model_name. fold max_calls.
  destruct (str_not prompt) eqn:Hempty; [left; split; reflexivity|].
  right. cbn [negb andb].
  destruct (get_wrapper wrapper_name wrapper_config) as [built|e] eqn:Hbuilt.
  2:{ left. split; [reflexivity|]. exists e. split; reflexivity. }
  right.
  destruct (wrapper_name =? "keyword") eqn:Hkw.
  - apply String.eqb_eq in Hkw. rewrite Hkw in Hbuilt.
    rewrite get_wrapper_keyword in Hbuilt. injection Hbuilt as <-.
    cbn [wrapper_reset wrapper_step KeywordWrapper.reset andb].
    unfold KeywordWrapper.step.
    cbn [KeywordWrapper.__init__ KeywordWrapper._keywords].
    destruct (KeywordWrapper.any_keyword_in _ _) eqn:Hany; cbn [bind fst snd Action_eqb].
    + left. repeat split. exact Hkw.
    + right. repeat split.
      exists (Keyword (KeywordWrapper.__init__ wrapper_config)), (count_step world).
      rewrite Hkw. repeat split.
      intros s Hs. cbn [wrapper_reset KeywordWrapper.reset] in Hs.
      injection Hs as <-. exact Hany.
  - right. cbn [andb]. repeat split.
    exists built, world. repeat split.
    intros s Hs. exfalso.
    unfold get_wrapper in Hbuilt. rewrite Hkw in Hbuilt.
    destruct (wrapper_name =? "noop"); [injection Hbuilt as <-; discriminate|].
    destruct (wrapper_name =? "history"); [injection Hbuilt as <-; discriminate|].
    destruct (wrapper_name =? "query_budget"); [injection Hbuilt as <-; discriminate|].
    discriminate.
Qed.

(** ** The shape of a run of the loop *)

Section LoopShape.

Variables (env : Env) (prompt model_name : string) (max_calls : Z).

(** A loop that was entered made some calls answered REQUERY and then one
    last call.  The last answer is ALLOW, BLOCK or, with the budget used
    up, REQUERY; the final output is the fixed message after BLOCK and the
    last raw output otherwise.  BLOCK can only be the answer to the first
    call, from a Keyword wrapper one of whose keywords is in the prompt. *)
Lemma query_loop_shape (fuel : nat) :
  forall run world run' world',
    query_loop fuel env prompt model_name max_calls run world = Some (Ok run', world') ->
    (run' = run /\ world' = world /\ max_calls <= call_index run) \/
    exists front last_raw action,
      raw_outputs run' = (raw_outputs run ++ front ++ [last_raw])%list /\
      decisions_sequence run'
        = (decisions_sequence run
           ++ repeat (Action_value REQUERY) (List.length front)
           ++ [Action_value action])%list /\
      action <> MODIFY /\
      final_output run'
        = (if Action_eqb action BLOCK then KeywordWrapper.BLOCK_MESSAGE else last_raw) /\
      (action = REQUERY ->
       call_index run + Z.of_nat (List.length front) + 1 = max_calls) /\
      (action = BLOCK ->
       exists s, wrapper run = Keyword s /\
                 KeywordWrapper.any_keyword_in (KeywordWrapper._keywords s)
                   (str_lower prompt) = true) /\
      (front <> [] \/ action = REQUERY -> exists s, wrapper run = History s).
Proof.
  induction fuel as [|fuel IH]; intros run world run' world' Hrun; [discriminate|].
  cbn [query_loop] in Hrun.
  destruct (call_index run <? max_calls)%Z eqn:Hlt.
  2:{ left. injection Hrun as <- <-. apply Z.ltb_ge in Hlt. repeat split. exact Hlt. }
  apply Z.ltb_lt in Hlt. right.
  destruct (fst (call_model env prompt model_name world)) as [out|e]; [|discriminate].
  destruct (wrapper_step (wrapper run) prompt out (call_index run))
    as [[[action text] w1]|e] eqn:Hstep; [|discriminate].
  pose proof (wrapper_step_answers _ _ _ _ _ _ _ Hstep)
    as [[-> ->]|[(-> & -> & s & Hs)|(-> & -> & s & Hs)]].
  - (* ALLOW *)
    injection Hrun as <- <-. exists [], out, ALLOW.
    cbn [raw_outputs decisions_sequence final_output List.length repeat app Action_eqb].
    repeat split; try discriminate. intros [Hf|Ha]; [congruence | discriminate].
  - (* BLOCK *)
    injection Hrun as <- <-. exists [], out, BLOCK.
    cbn [raw_outputs decisions_sequence final_output List.length repeat app Action_eqb].
    repeat split; try discriminate.
    + intros _. exists s. split; [exact Hs|].
      rewrite Hs in Hstep. cbn [wrapper_step] in Hstep.
      unfold KeywordWrapper.step in Hstep.
      destruct (KeywordWrapper.any_keyword_in _ _); [reflexivity | discriminate].
    + intros [Hf|Ha]; [congruence | discriminate].
  - (* REQUERY *)
    destruct (call_index run + 1 >=? max_calls)%Z eqn:Hge.
    + injection Hrun as <- <-. exists [], out, REQUERY.
      cbn [raw_outputs decisions_sequence final_output List.length repeat app Action_eqb].
      rewrite last_snoc. repeat split; try discriminate.
      * intros _. rewrite Z.geb_leb in Hge. apply Z.leb_le in Hge. cbn. lia.
      * intros _. now exists s.
    + rewrite Z.geb_leb in Hge. apply Z.leb_gt in Hge.
      apply IH in Hrun.
      cbn [raw_outputs decisions_sequence final_output call_index wrapper] in Hrun.
      destruct Hrun
        as [(_ & _ & Hstop)
           |(front & last_raw & action & Hr & Hd & Hm & Hf & Hq & Hb & _)];
        [lia|].
      exists (out :: front), last_raw, action.
      rewrite Hr, Hd, <- !app_assoc. cbn [List.length repeat app].
      repeat split; try assumption.
      * intros Ha. specialize (Hq Ha). lia.
      * intros Ha. destruct (Hb Ha) as (s' & Hw1 & _). exfalso.
        rewrite Hs in Hstep. apply wrapper_step_history in Hstep.
        destruct Hstep as [s1 ->]. discriminate.
      * intros _. now exists s.
Qed.

(** When the loop raises, the model client has raised on the last call
    made, and what leaves the handler is the 502 built from it. *)
Lemma query_loop_raises (fuel : nat) :
  forall run world e world',
    query_loop fuel env prompt model_name max_calls run world = Some (Raise e, world') ->
    exists e0,
      model_complete env (Nat.pred (model_calls world')) prompt model_name = Raise e0 /\
      e = HTTPException 502 (exn_str e0) /\
      (model_calls world < model_calls world')%nat /\
      trace_file world' = trace_file world.
Proof.
  induction fuel as [|fuel IH]; intros run world e world' Hrun; [discriminate|].
  cbn [query_loop] in Hrun.
  destruct (call_index run <? max_calls)%Z; [|discriminate].
  cbn [call_model fst snd] in Hrun.
  destruct (model_complete env (model_calls world) prompt model_name) as [out|e0] eqn:Hm.
  2:{ injection Hrun as <- <-. exists e0. cbn [model_calls trace_file Nat.pred].
      repeat split; [exact Hm | lia]. }
  destruct (wrapper_step_total (wrapper run) prompt out (call_index run))
    as (action & text & w1 & Hstep).
  rewrite Hstep in Hrun.
  destruct action; try discriminate.
  destruct (call_index run + 1 >=? max_calls)%Z; [discriminate|].
  apply IH in Hrun. destruct Hrun as (e0 & Hm0 & He & Hlt & Htr).
  fields_cbn. exists e0. repeat split; try assumption. lia.
Qed.

End LoopShape.

(** ** The registry *)

Lemma get_wrapper_cases (name : string) (config : WrapperConfig) :
  (name = "noop" /\ get_wrapper name config = Ok (Noop (NoopWrapper.__init__ config))) \/
  (name = "keyword"
   /\ get_wrapper name config = Ok (Keyword (KeywordWrapper.__init__ config))) \/
  (name = "history"
   /\ get_wrapper name config = Ok (History (HistoryWrapper.__init__ config))) \/
  (name = "query_budget"
   /\ get_wrapper name config = Ok (QueryBudget (QueryBudgetWrapper.__init__ config))) \/
  (name <> "noop" /\ name <> "keyword" /\ name <> "history" /\ name <> "query_budget"
   /\ get_wrapper name config = Raise (ValueError ("Unknown wrapper: " ++ name))).
Proof.
  unfold get_wrapper.
  destruct (name =? "noop") eqn:E1;
    [apply String.eqb_eq in E1; left; now split | apply String.eqb_neq in E1].
  destruct (name =? "keyword") eqn:E2;
    [apply String.eqb_eq in E2; right; left; now split | apply String.eqb_neq in E2].
  destruct (name =? "history") eqn:E3;
    [apply String.eqb_eq in E3; right; right; left; now split
    | apply String.eqb_neq in E3].
  destruct (name =? "query_budget") eqn:E4;
    [apply String.eqb_eq in E4; right; right; right; left; now split
    | apply String.eqb_neq in E4].
  right. right. right. right. repeat split; assumption.
Qed.

(** ** What a response from the loop looks like *)

(** A response [query_run] returns, when a Keyword wrapper it starts from
    has none of its keywords in the prompt: its trace record, and its
    sequences, which are empty (no budget) or some REQUERY followed by one
    ALLOW or REQUERY. *)
Lemma query_run_anatomy (env : Env) (model_name wrapper_name : string)
    (wrapper_config : WrapperConfig) (prompt : string) (max_calls : Z)
    (wrapper0 : Wrapper) (world0 world' : World) (resp : QueryResponse.t) :
  (forall s, wrapper0 = Keyword s ->
             KeywordWrapper.any_keyword_in (KeywordWrapper._keywords s)
               (str_lower prompt) = false) ->
  query_run env model_name wrapper_name wrapper_config prompt max_calls wrapper0 world0
    = Some (Ok resp, world') ->
  (exists state,
      trace_file world'
      = (trace_file world0
         ++ [ {| TraceRecord.timestamp := utcnow_isoformat env;
                 TraceRecord.model_name := model_name;
                 TraceRecord.wrapper_name := wrapper_name;
                 TraceRecord.wrapper_config := wrapper_config;
                 TraceRecord.user_prompt := prompt;
                 TraceRecord.raw_model_outputs := QueryResponse.raw_outputs resp;
                 TraceRecord.wrapper_decisions := QueryResponse.decisions_sequence resp;
                 TraceRecord.final_output := QueryResponse.final_output resp;
                 TraceRecord.total_model_calls := QueryResponse.model_call_count resp;
                 TraceRecord.wrapper_state := state |} ])%list) /\
  ((QueryResponse.raw_outputs resp = [] /\
    QueryResponse.decisions_sequence resp = [] /\
    QueryResponse.final_output resp = "" /\
    QueryResponse.wrapper_decision resp = "ALLOW" /\
    max_calls <= 0) \/
   (exists front last_raw action,
       QueryResponse.raw_outputs resp = (front ++ [last_raw])%list /\
       QueryResponse.decisions_sequence resp
         = (repeat "REQUERY" (List.length front) ++ [Action_value action])%list /\
       (action = ALLOW \/ action = REQUERY) /\
       QueryResponse.final_output resp = last_raw /\
       QueryResponse.wrapper_decision resp = Action_value action /\
       (action = REQUERY -> Z.of_nat (List.length front) + 1 = max_calls) /\
       (front <> [] \/ action = REQUERY -> exists s, wrapper0 = History s))).
Proof.
  intros Hkw Hq. apply query_run_unfold in Hq. cbv zeta in Hq.
  destruct Hq as [(e & _ & He)|(run & world1 & Hloop & -> & Hresp)]; [discriminate|].
  injection Hresp as ->.
  pose proof (query_loop_effects _ _ _ _ _ _ _ _ _ Hloop) as (Htr & _).
  fields_cbn. split.
  { eexists. rewrite Htr. reflexivity. }
  apply query_loop_shape in Hloop. fields_cbn.
  destruct Hloop
    as [(-> & _ & Hstop)
       |(front & last_raw & action & Hr & Hd & Hm & Hf & Hq & Hb & Hh)].
  - left. fields_cbn. repeat split. exact Hstop.
  - right. exists front, last_raw, action. cbn [app] in Hr, Hd.
    assert (Ha : action = ALLOW \/ action = REQUERY).
    { destruct action; [now left | | congruence | now right].
      destruct (Hb eq_refl) as (s & Hs & Hany). rewrite (Hkw s Hs) in Hany.
      discriminate. }
    rewrite Hr, Hd. repeat split; try assumption.
    + rewrite Hf. destruct Ha as [-> | ->]; reflexivity.
    + apply last_snoc.
Qed.

Lemma list_in_requery_tail (n : nat) (action : Action) :
  action = ALLOW \/ action = REQUERY ->
  list_in "BLOCK" (repeat "REQUERY" n ++ [Action_value action]) = false.
Proof.
  intros Ha. apply list_in_false. intros Hin. apply in_app_or in Hin.
  destruct Hin as [Hin|[Hin|[]]].
  - apply repeat_spec in Hin. discriminate.
  - destruct Ha as [-> | ->]; discriminate.
Qed.

(** X6.  Where the final output of a response comes from.  It is the fixed
    text of the empty prompt, or the fixed block message when the Keyword
    pre-check blocks, and in every other case the last raw model output,
    unchanged (the empty text when no call was made): no wrapper rewrites
    what the model said. *)
Theorem final_output_provenance (env : Env) (cfg : Config.t) (req : QueryRequest.t)
    (world world' : World) (resp : QueryResponse.t) :
  query env cfg req world = Some (Ok resp, world') ->
  if str_not (str_strip (QueryRequest.prompt req))
  then QueryResponse.final_output resp = "[Empty prompt]"
       /\ QueryResponse.wrapper_decision resp = "SKIP"
  else if keyword_precheck_blocks cfg req
  then QueryResponse.final_output resp = "[Blocked by keyword wrapper]"
       /\ QueryResponse.wrapper_decision resp = "BLOCK"
  else QueryResponse.final_output resp = last (QueryResponse.raw_outputs resp) ""
       /\ (QueryResponse.wrapper_decision resp = "ALLOW"
           \/ QueryResponse.wrapper_decision resp = "REQUERY").
Proof.
  intros Hq.
  destruct (query_paths env cfg req world)
    as [(He & Hp)|[(He & e & _ & Hp)|[(He & Hb & _ & Hp)
       |(He & Hb & built & world0 & _ & _ & _ & Hp & Hkw)]]];
    rewrite Hp in Hq; rewrite He; try rewrite Hb.
  - injection Hq as <- <-. split; reflexivity.
  - discriminate.
  - injection Hq as <- <-. split; reflexivity.
  - apply query_run_anatomy in Hq; [|exact Hkw].
    destruct Hq as (_ & [(Hr & _ & Hf & Hd & _)
                        |(front & last_raw & action & Hr & _ & Ha & Hf & Hd & _)]).
    + rewrite Hr, Hf, Hd. split; [reflexivity | now left].
    + rewrite Hr, Hf, Hd, last_snoc. split; [reflexivity|].
      destruct Ha as [-> | ->]; [now left | now right].
Qed.

(** X7.  The decisions of a response are some REQUERY followed by at most
    one last entry, ALLOW, BLOCK or REQUERY: a terminal action ends the
    request, MODIFY is never among the decisions, and a REQUERY can only
    come from the History wrapper. *)
Theorem decisions_requery_until_last (env : Env) (cfg : Config.t) (req : QueryRequest.t)
    (world world' : World) (resp : QueryResponse.t) :
  query env cfg req world = Some (Ok resp, world') ->
  (exists n tail,
      QueryResponse.decisions_sequence resp = (repeat "REQUERY" n ++ tail)%list /\
      (tail = [] \/ tail = ["ALLOW"] \/ tail = ["BLOCK"] \/ tail = ["REQUERY"])) /\
  ~ In "MODIFY" (QueryResponse.decisions_sequence resp) /\
  (In "REQUERY" (QueryResponse.decisions_sequence resp) ->
   resolve_wrapper_name cfg req = "history").
Proof.
  intros Hq.
  destruct (query_paths env cfg req world)
    as [(He & Hp)|[(He & e & _ & Hp)|[(He & Hb & _ & Hp)
       |(He & Hb & built & world0 & Hbuilt & _ & _ & Hp & Hkw)]]];
    rewrite Hp in Hq.
  - injection Hq as <- <-. split; [exists 0%nat, []; split; [reflexivity | now left]|].
    split; [intros [] | intros []].
  - discriminate.
  - injection Hq as <- <-. split.
    + exists 0%nat, ["BLOCK"]. split; [reflexivity | right; right; now left].
    + split; [intros [E|[]]; discriminate | intros [E|[]]; discriminate].
  - apply query_run_anatomy in Hq; [|exact Hkw].
    destruct Hq as (_ & [(_ & Hd & _)
                        |(front & last_raw & action & _ & Hd & Ha & _ & _ & _ & Hh)]).
    + rewrite Hd. split; [exists 0%nat, []; split; [reflexivity | now left]|].
      split; intros [].
    + rewrite Hd. split; [|split].
      * exists (List.length front), [Action_value action]. split; [reflexivity|].
        destruct Ha as [-> | ->]; [right; now left | right; right; now right].
      * intros Hin. apply in_app_or in Hin. destruct Hin as [Hin|[Hin|[]]].
        -- apply repeat_spec in Hin. discriminate.
        -- destruct Ha as [-> | ->]; discriminate.
      * intros Hin.
        assert (Hhist : exists s, wrapper_reset built = History s).
        { apply Hh. apply in_app_or in Hin. destruct Hin as [Hin|[Hin|[]]].
          - left. intros ->. destruct Hin.
          - right. destruct Ha as [-> | ->]; [discriminate | reflexivity]. }
        destruct Hhist as [s Hs].
        destruct (get_wrapper_cases (resolve_wrapper_name cfg req)
                    (get_wrapper_config cfg (resolve_wrapper_name cfg req)))
          as [(_ & Hg)|[(_ & Hg)|[(Hn & _)|[(_ & Hg)|(_ & _ & _ & _ & Hg)]]]];
          try exact Hn; rewrite Hg in Hbuilt; try discriminate;
          injection Hbuilt as <-; discriminate.
Qed.

(** ** The trace record of a request *)

Lemma snoc_inj {A : Type} (xs : list A) (x y : A) :
  (xs ++ [x])%list = (xs ++ [y])%list -> x = y.
Proof. intros E. apply app_inj_tail in E. now destruct E. Qed.

Lemma snoc_not_self {A : Type} (xs : list A) (x : A) : xs <> (xs ++ [x])%list.
Proof.
  intros E. apply (f_equal (@List.length _)) in E.
  rewrite length_app in E. cbn [List.length] in E. lia.
Qed.

(** X8.  The record a request appends to the trace file says what the
    response says: it carries the stripped prompt, the wrapper name and
    config the handler resolved, the model name, the time of writing, and
    the raw outputs, decisions, final output and call count of the
    response. *)
Theorem trace_record_mirrors_response (env : Env) (cfg : Config.t)
    (req : QueryRequest.t) (world world' : World) (resp : QueryResponse.t)
    (record : TraceRecord.t) :
  query env cfg req world = Some (Ok resp, world') ->
  trace_file world' = (trace_file world ++ [record])%list ->
  TraceRecord.user_prompt record = str_strip (QueryRequest.prompt req) /\
  TraceRecord.wrapper_name record = resolve_wrapper_name cfg req /\
  TraceRecord.wrapper_config record
    = get_wrapper_config cfg (resolve_wrapper_name cfg req) /\
  TraceRecord.model_name record
    = dict_get (Config.model_name cfg) "google/gemini-2.5-flash-lite" /\
  TraceRecord.timestamp record = utcnow_isoformat env /\
  TraceRecord.raw_model_outputs record = QueryResponse.raw_outputs resp /\
  TraceRecord.wrapper_decisions record = QueryResponse.decisions_sequence resp /\
  TraceRecord.final_output record = QueryResponse.final_output resp /\
  TraceRecord.total_model_calls record = QueryResponse.model_call_count resp.
Proof.
  intros Hq Hfile.
  destruct (query_paths env cfg req world)
    as [(He & Hp)|[(He & e & _ & Hp)|[(He & Hb & _ & Hp)
       |(He & Hb & built & world0 & _ & Htr0 & _ & Hp & Hkw)]]];
    rewrite Hp in Hq.
  - injection Hq as <- <-. exfalso. exact (snoc_not_self _ _ Hfile).
  - discriminate.
  - injection Hq as <- <-. fields_cbn. apply snoc_inj in Hfile. subst record.
    repeat split.
  - apply query_run_anatomy in Hq; [|exact Hkw].
    destruct Hq as ((state & Hrec) & _). rewrite Htr0, Hfile in Hrec.
    apply snoc_inj in Hrec. subst record. repeat split.
Qed.

(** X9.  [is_blocked] of the analysis script holds of the record of a
    request exactly when the Keyword pre-check blocked it: BLOCK never
    comes out of the loop.  A record that is blocked counts no model
    call. *)
Theorem blocked_records_are_precheck_blocks (env : Env) (cfg : Config.t)
    (req : QueryRequest.t) (world world' : World) (resp : QueryResponse.t)
    (record : TraceRecord.t) :
  query env cfg req world = Some (Ok resp, world') ->
  trace_file world' = (trace_file world ++ [record])%list ->
  is_blocked record = keyword_precheck_blocks cfg req /\
  (is_blocked record = true -> TraceRecord.total_model_calls record = 0).
Proof.
  intros Hq Hfile.
  destruct (query_paths env cfg req world)
    as [(He & Hp)|[(He & e & _ & Hp)|[(He & Hb & _ & Hp)
       |(He & Hb & built & world0 & _ & Htr0 & _ & Hp & Hkw)]]];
    rewrite Hp in Hq.
  - injection Hq as <- <-. exfalso. exact (snoc_not_self _ _ Hfile).
  - discriminate.
  - injection Hq as <- <-. fields_cbn. apply snoc_inj in Hfile. subst record.
    rewrite Hb. split; reflexivity.
  - apply query_run_anatomy in Hq; [|exact Hkw].
    destruct Hq as ((state & Hrec) & Hshape). rewrite Htr0, Hfile in Hrec.
    apply snoc_inj in Hrec. subst record. rewrite Hb.
    unfold is_blocked. fields_cbn.
    assert (Hno : list_in "BLOCK" (QueryResponse.decisions_sequence resp) = false).
    { destruct Hshape as [(_ & -> & _)|(front & last_raw & action & _ & -> & Ha & _)];
        [reflexivity | now apply list_in_requery_tail]. }
    rewrite Hno. split; [reflexivity | discriminate].
Qed.

(** ** Requests that raise *)

(** X10.  An exception leaves the handler in two cases only, and in both
    nothing is written to the trace file: the wrapper name is not a
    registered one, which is a [ValueError] raised before any model call;
    or the model client raised on the last call made, which is passed on
    as the 502 carrying its message. *)
Theorem query_raises_only (env : Env) (cfg : Config.t) (req : QueryRequest.t)
    (world world' : World) (e : exn) :
  query env cfg req world = Some (Raise e, world') ->
  trace_file world' = trace_file world /\
  ((e = ValueError ("Unknown wrapper: " ++ resolve_wrapper_name cfg req) /\
    world' = world /\
    ~ In (resolve_wrapper_name cfg req) (map WrapperInfo.id list_wrappers)) \/
   (exists e0,
       model_complete env (Nat.pred (model_calls world'))
         (str_strip (QueryRequest.prompt req))
         (dict_get (Config.model_name cfg) "google/gemini-2.5-flash-lite") = Raise e0 /\
       e = HTTPException 502 (exn_str e0) /\
       (model_calls world < model_calls world')%nat)).
Proof.
  intros Hq.
  destruct (query_paths env cfg req world)
    as [(He & Hp)|[(He & e1 & Hg & Hp)|[(He & Hb & _ & Hp)
       |(He & Hb & built & world0 & _ & Htr0 & Hm0 & Hp & Hkw)]]];
    rewrite Hp in Hq.
  - discriminate.
  - injection Hq as <- <-. split; [reflexivity|]. left.
    destruct (get_wrapper_cases (resolve_wrapper_name cfg req)
                (get_wrapper_config cfg (resolve_wrapper_name cfg req)))
      as [(_ & Hc)|[(_ & Hc)|[(_ & Hc)|[(_ & Hc)|(N1 & N2 & N3 & N4 & Hc)]]]];
      rewrite Hc in Hg; try discriminate.
    injection Hg as <-. repeat split.
    cbn. intros [E|[E|[E|[E|[]]]]]; congruence.
  - discriminate.
  - apply query_run_unfold in Hq. cbv zeta in Hq.
    destruct Hq as [(e1 & Hloop & He1)|(run & world1 & _ & _ & Hresp)]; [|discriminate].
    injection He1 as <-. apply query_loop_raises in Hloop.
    destruct Hloop as (e0 & Hm & -> & Hlt & Htr).
    split; [congruence|]. right. exists e0. repeat split; [exact Hm | lia].
Qed.

(** X11.  With a prompt that is not empty once stripped, a wrapper name
    that [GET /wrappers] does not list is refused: the handler raises the
    [ValueError] naming it, and neither calls the model nor writes a
    trace. *)
Theorem unlisted_wrapper_is_refused (env : Env) (cfg : Config.t) (req : QueryRequest.t)
    (world : World) :
  str_strip (QueryRequest.prompt req) <> "" ->
  ~ In (resolve_wrapper_name cfg req) (map WrapperInfo.id list_wrappers) ->
  query env cfg req world
    = Some (Raise (ValueError ("Unknown wrapper: " ++ resolve_wrapper_name cfg req)),
            world).
Proof.
  intros Hne Hnot. unfold query. apply str_not_false in Hne. rewrite Hne.
  destruct (get_wrapper_cases (resolve_wrapper_name cfg req)
              (get_wrapper_config cfg (resolve_wrapper_name cfg req)))
    as [(Hn & _)|[(Hn & _)|[(Hn & _)|[(Hn & _)|(_ & _ & _ & _ & Hc)]]]];
    try (exfalso; apply Hnot; rewrite Hn; cbn; tauto).
  rewrite Hc. reflexivity.
Qed.

(** X12.  The names [GET /wrappers] lists are exactly the names
    [get_wrapper] can build, whatever the config. *)
Theorem discovery_lists_registry (name : string) (config : WrapperConfig) :
  (exists w, get_wrapper name config = Ok w)
  <-> In name (map WrapperInfo.id list_wrappers).
Proof.
  destruct (get_wrapper_cases name config)
    as [(Hn & Hc)|[(Hn & Hc)|[(Hn & Hc)|[(Hn & Hc)|(N1 & N2 & N3 & N4 & Hc)]]]];
    rewrite Hc.
  1-4: split; [intros _; rewrite Hn; cbn; tauto | intros _; eexists; reflexivity].
  split; [intros [w Hw]; discriminate|].
  cbn. intros [E|[E|[E|[E|[]]]]]; congruence.
Qed.

(** X13.  When the first model call fails, the request fails with it: for
    a prompt that is not empty once stripped, a registered wrapper, no
    pre-check block and a budget of at least 1, the handler raises the 502
    carrying the client's message after that one call, and writes no
    trace. *)
Theorem first_call_failure_is_502 (env : Env) (cfg : Config.t) (req : QueryRequest.t)
    (world : World) (built : Wrapper) (e0 : exn) :
  let wrapper_name := resolve_wrapper_name cfg req in
  let wrapper_config := get_wrapper_config cfg wrapper_name in
  let prompt := str_strip (QueryRequest.prompt req) in
  let model_name := dict_get (Config.model_name cfg) "google/gemini-2.5-flash-lite" in
  prompt <> "" ->
  get_wrapper wrapper_name wrapper_config = Ok built ->
  keyword_precheck_blocks cfg req = false ->
  1 <= resolve_max_calls cfg req wrapper_name wrapper_config ->
  model_complete env (model_calls world) prompt model_name = Raise e0 ->
  exists world',
    query env cfg req world = Some (Raise (HTTPException 502 (exn_str e0)), world') /\
    trace_file world' = trace_file world /\
    model_calls world' = S (model_calls world).
Proof.
  intros wrapper_name wrapper_config prompt model_name Hne Hbuilt Hpre HN Hmodel.
  apply str_not_false in Hne.
  destruct (query_paths env cfg req world)
    as [(He & _)|[(_ & e & Hg & _)|[(_ & Hb & _)
       |(_ & _ & built' & world0 & _ & Htr0 & Hm0 & Hp & _)]]].
  - fold prompt in He. congruence.
  - fold wrapper_name in Hg. fold wrapper_config in Hg. congruence.
  - congruence.
  - rewrite Hp. fold wrapper_name. fold wrapper_config. fold prompt. fold model_name.
    unfold query_run. cbn [query_loop call_index].
    replace (0 <? resolve_max_calls cfg req wrapper_name wrapper_config)%Z with true
      by (symmetry; apply Z.ltb_lt; lia).
    cbn [call_model fst snd]. rewrite Hm0, Hmodel.
    eexists. split; [reflexivity|]. fields_cbn. split; [exact Htr0 | reflexivity].
Qed.

(** X14.  With a budget of 0 or less the loop is not entered: for a prompt
    that is not empty once stripped, a registered wrapper and no pre-check
    block, the model is not called, and the response has no raw output, no
    decision, the empty text as final output and ALLOW as its decision;
    its trace record counts no call. *)
Theorem no_budget_no_call (env : Env) (cfg : Config.t) (req : QueryRequest.t)
    (world : World) (built : Wrapper) :
  let wrapper_name := resolve_wrapper_name cfg req in
  let wrapper_config := get_wrapper_config cfg wrapper_name in
  str_strip (QueryRequest.prompt req) <> "" ->
  get_wrapper wrapper_name wrapper_config = Ok built ->
  keyword_precheck_blocks cfg req = false ->
  resolve_max_calls cfg req wrapper_name wrapper_config <= 0 ->
  exists resp world' record,
    query env cfg req world = Some (Ok resp, world') /\
    model_calls world' = model_calls world /\
    QueryResponse.raw_outputs resp = [] /\
    QueryResponse.decisions_sequence resp = [] /\
    QueryResponse.final_output resp = "" /\
    QueryResponse.wrapper_decision resp = "ALLOW" /\
    QueryResponse.model_call_count resp = 0 /\
    trace_file world' = (trace_file world ++ [record])%list /\
    TraceRecord.total_model_calls record = 0.
Proof.
  intros wrapper_name wrapper_config Hne Hbuilt Hpre HN.
  apply str_not_false in Hne.
  destruct (query_paths env cfg req world)
    as [(He & _)|[(_ & e & Hg & _)|[(_ & Hb & _)
       |(_ & _ & built' & world0 & _ & Htr0 & Hm0 & Hp & _)]]].
  - congruence.
  - fold wrapper_name in Hg. fold wrapper_config in Hg. congruence.
  - congruence.
  - rewrite Hp. fold wrapper_name. fold wrapper_config.
    unfold query_run. cbn [query_loop call_index].
    replace (0 <? resolve_max_calls cfg req wrapper_name wrapper_config)%Z with false
      by (symmetry; apply Z.ltb_ge; lia).
    eexists _, _, _. split; [reflexivity|]. fields_cbn.
    rewrite Htr0. repeat split. exact Hm0.
Qed.

(** ** The caller's [max_queries] *)

(** X15.  The [max_queries] of a request counts only for the query-budget
    wrapper, and there only within 1 to 10: for any other wrapper, or with
    a value outside that range, the handler does exactly what it does when
    the field is absent. *)
Theorem max_queries_without_effect (env : Env) (cfg : Config.t) (prompt : string)
    (wrapper_name : option string) (user_limit : Z) (world : World) :
  resolve_wrapper_name cfg
    {| QueryRequest.prompt := prompt; QueryRequest.wrapper_name := wrapper_name;
       QueryRequest.max_queries := None |} <> "query_budget"
  \/ ~ 1 <= user_limit <= 10 ->
  query env cfg
    {| QueryRequest.prompt := prompt; QueryRequest.wrapper_name := wrapper_name;
       QueryRequest.max_queries := Some user_limit |} world
  = query env cfg
      {| QueryRequest.prompt := prompt; QueryRequest.wrapper_name := wrapper_name;
         QueryRequest.max_queries := None |} world.
Proof.
  intros Hcase. unfold query.
  change (resolve_wrapper_name cfg
            {| QueryRequest.prompt := prompt; QueryRequest.wrapper_name := wrapper_name;
               QueryRequest.max_queries := Some user_limit |})
    with (resolve_wrapper_name cfg
            {| QueryRequest.prompt := prompt; QueryRequest.wrapper_name := wrapper_name;
               QueryRequest.max_queries := None |}).
  set (name := resolve_wrapper_name cfg _) in *.
  cbn [QueryRequest.prompt].
  assert (Hres : forall config,
             resolve_max_calls cfg
               {| QueryRequest.prompt := prompt; QueryRequest.wrapper_name := wrapper_name;
                  QueryRequest.max_queries := Some user_limit |} name config
             = resolve_max_calls cfg
                 {| QueryRequest.prompt := prompt;
                    QueryRequest.wrapper_name := wrapper_name;
                    QueryRequest.max_queries := None |} name config).
  { intros config. unfold resolve_max_calls. cbn [QueryRequest.max_queries].
    destruct (name =? "query_budget") eqn:E; [|reflexivity].
    apply String.eqb_eq in E. destruct Hcase as [Hn|Hout]; [congruence|].
    destruct ((1 <=? user_limit) && (user_limit <=? 10))%Z eqn:Hin; [|reflexivity].
    exfalso. apply Hout. apply andb_prop in Hin. destruct Hin as [H1 H2].
    apply Z.leb_le in H1. apply Z.leb_le in H2. lia. }
  rewrite Hres. reflexivity.
Qed.

(** ** Requests of the wrappers that never re-query *)

Lemma wrapper_step_allows (w : Wrapper) (prompt out : string) (call_index : Z) :
  (forall s, w <> History s) ->
  (forall s, w = Keyword s ->
             KeywordWrapper.any_keyword_in (KeywordWrapper._keywords s)
               (str_lower prompt) = false) ->
  exists w', wrapper_step w prompt out call_index = Ok (ALLOW, out, w').
Proof.
  intros Hh Hkw. destruct w as [s|s|s|s]; cbn [wrapper_step].
  - eexists. reflexivity.
  - unfold KeywordWrapper.step. rewrite (Hkw s eq_refl). eexists. reflexivity.
  - exfalso. exact (Hh s eq_refl).
  - eexists. reflexivity.
Qed.

(** X16.  With any registered wrapper but the History one, a request that
    the pre-check does not block gets the first model output as it is: for
    a prompt that is not empty once stripped and a budget of at least 1,
    when the first model call succeeds the handler makes that call only,
    decides ALLOW, and returns its text unchanged. *)
Theorem first_output_passes_unless_history (env : Env) (cfg : Config.t)
    (req : QueryRequest.t) (world : World) (built : Wrapper) (out : string) :
  let wrapper_name := resolve_wrapper_name cfg req in
  let wrapper_config := get_wrapper_config cfg wrapper_name in
  let prompt := str_strip (QueryRequest.prompt req) in
  let model_name := dict_get (Config.model_name cfg) "google/gemini-2.5-flash-lite" in
  prompt <> "" ->
  get_wrapper wrapper_name wrapper_config = Ok built ->
  wrapper_name <> "history" ->
  keyword_precheck_blocks cfg req = false ->
  1 <= resolve_max_calls cfg req wrapper_name wrapper_config ->
  model_complete env (model_calls world) prompt model_name = Ok out ->
  exists resp world',
    query env cfg req world = Some (Ok resp, world') /\
    model_calls world' = S (model_calls world) /\
    QueryResponse.raw_outputs resp = [out] /\
    QueryResponse.decisions_sequence resp = ["ALLOW"] /\
    QueryResponse.wrapper_decision resp = "ALLOW" /\
    QueryResponse.final_output resp = out /\
    QueryResponse.model_call_count resp = 1.
Proof.
  intros wrapper_name wrapper_config prompt model_name
         Hne Hbuilt Hnh Hpre HN Hmodel.
  apply str_not_false in Hne.
  destruct (query_paths env cfg req world)
    as [(He & _)|[(_ & e & Hg & _)|[(_ & Hb & _)
       |(_ & _ & built' & world0 & Hbuilt' & Htr0 & Hm0 & Hp & Hkw)]]].
  - fold prompt in He. congruence.
  - fold wrapper_name in Hg. fold wrapper_config in Hg. congruence.
  - congruence.
  - fold wrapper_name in Hbuilt'. fold wrapper_config in Hbuilt'.
    rewrite Hbuilt in Hbuilt'. injection Hbuilt' as <-.
    assert (Hnot : forall s, wrapper_reset built <> History s).
    { intros s Hs.
      destruct (get_wrapper_cases wrapper_name wrapper_config)
        as [(_ & Hc)|[(_ & Hc)|[(Hn & _)|[(_ & Hc)|(_ & _ & _ & _ & Hc)]]]];
        try (exact (Hnh Hn)); rewrite Hc in Hbuilt; try discriminate;
        injection Hbuilt as <-; discriminate. }
    destruct (wrapper_step_allows (wrapper_reset built) prompt out 0 Hnot Hkw)
      as [w' Hstep].
    rewrite Hp. fold wrapper_name. fold wrapper_config. fold prompt. fold model_name.
    unfold query_run. cbn [query_loop call_index wrapper].
    replace (0 <? resolve_max_calls cfg req wrapper_name wrapper_config)%Z with true
      by (symmetry; apply Z.ltb_lt; lia).
    cbn [call_model fst snd]. rewrite Hm0, Hmodel, Hstep.
    eexists _, _. split; [reflexivity|]. fields_cbn. repeat split.
Qed.

(** X17.  The summary of a query-budget request names the budget that
    [GET /config] lets a caller expect: the request's [max_queries] when it
    lies between the [min_queries] and [max_queries] of the answer of
    [get_config], its [default_queries] otherwise.  With that budget at
    least 1 and a first model call that succeeds, one call is used. *)
Theorem query_budget_summary_names_budget (env : Env) (cfg : Config.t)
    (req : QueryRequest.t) (world : World) (out : string) :
  let view := get_config cfg in
  let budget :=
    match QueryRequest.max_queries req with
    | Some user_limit =>
        if ((ConfigView.min_queries view <=? user_limit)
            && (user_limit <=? ConfigView.max_queries view))%Z
        then user_limit else ConfigView.default_queries view
    | None => ConfigView.default_queries view
    end in
  resolve_wrapper_name cfg req = "query_budget" ->
  str_strip (QueryRequest.prompt req) <> "" ->
  1 <= budget ->
  model_complete env (model_calls world) (str_strip (QueryRequest.prompt req))
    (dict_get (Config.model_name cfg) "google/gemini-2.5-flash-lite") = Ok out ->
  exists resp world',
    query env cfg req world = Some (Ok resp, world') /\
    QueryResponse.decision_summary resp
    = "Query budget: up to " ++ str_of_int budget ++ " call(s); used "
        ++ str_of_int 1 ++ ".".
Proof.
  intros view budget Hname Hne Hbudget Hmodel.
  assert (HN : resolve_max_calls cfg req "query_budget"
                 (get_wrapper_config cfg "query_budget") = budget).
  { subst budget view. unfold resolve_max_calls, get_wrapper_config, get_config.
    cbn [String.eqb Ascii.eqb Bool.eqb ConfigView.min_queries ConfigView.max_queries
         ConfigView.default_queries].
    destruct (QueryRequest.max_queries req) as [u|];
      [destruct ((1 <=? u) && (u <=? 10))%Z; [reflexivity|]|];
      destruct (cfg_max_queries (dict_get (Config.query_budget cfg) empty_config));
      reflexivity. }
  unfold query. rewrite Hname.
  apply str_not_false in Hne. rewrite Hne.
  cbn [get_wrapper String.eqb Ascii.eqb Bool.eqb wrapper_reset].
  rewrite HN. unfold query_run.
  cbn [query_loop call_index wrapper raw_outputs decisions_sequence final_output].
  replace (0 <? budget)%Z with true by (symmetry; apply Z.ltb_lt; lia).
  cbn [call_model fst snd]. rewrite Hmodel.
  cbn [wrapper_step QueryBudgetWrapper.step bind fst snd].
  eexists _, _. split; [reflexivity|]. reflexivity.
Qed.

(** ** Requests of the History wrapper *)

Lemma history_step_on_empty (s : HistoryWrapper.t) (prompt out : string) (idx : Z) :
  HistoryWrapper._buffer s = [] ->
  (str_not (str_strip out) = true /\
   wrapper_step (History s) prompt out idx = Ok (REQUERY, "", History s)) \/
  (str_not (str_strip out) = false /\
   exists s', wrapper_step (History s) prompt out idx = Ok (ALLOW, out, History s')).
Proof.
  intros Hbuf. cbn [wrapper_step]. rewrite history_step_eq. cbv zeta.
  rewrite Hbuf. cbn [list_in existsb]. rewrite orb_false_r.
  destruct (str_not (str_strip out)); [left | right]; cbn [bind fst snd].
  - split; reflexivity.
  - split; [reflexivity|]. eexists. reflexivity.
Qed.

Section HistoryLoop.

Variables (env : Env) (prompt model_name : string) (max_calls : Z).

(** In the loop, a History wrapper whose buffer is empty decides by the
    output alone: REQUERY on a blank one, ALLOW on any other. *)
Lemma query_loop_history_blank (fuel : nat) :
  forall run world run' world' s,
    wrapper run = History s ->
    HistoryWrapper._buffer s = [] ->
    query_loop fuel env prompt model_name max_calls run world = Some (Ok run', world') ->
    exists raws,
      raw_outputs run' = (raw_outputs run ++ raws)%list /\
      decisions_sequence run'
        = (decisions_sequence run
           ++ map (fun raw => if str_not (str_strip raw) then "REQUERY" else "ALLOW")
                raws)%list.
Proof.
  induction fuel as [|fuel IH]; intros run world run' world' s Hw Hbuf Hrun;
    [discriminate|].
  cbn [query_loop] in Hrun.
  destruct (call_index run <? max_calls)%Z.
  2:{ injection Hrun as <- _. exists []. cbn [map]. now rewrite !app_nil_r. }
  destruct (fst (call_model env prompt model_name world)) as [out|e]; [|discriminate].
  rewrite Hw in Hrun.
  destruct (history_step_on_empty s prompt out (call_index run) Hbuf)
    as [(Hblank & Hstep)|(Hblank & s' & Hstep)]; rewrite Hstep in Hrun.
  - destruct (call_index run + 1 >=? max_calls)%Z.
    + injection Hrun as <- _. exists [out]. cbn [map raw_outputs decisions_sequence].
      rewrite Hblank. split; reflexivity.
    + apply (IH _ _ _ _ s) in Hrun; [|reflexivity | exact Hbuf].
      destruct Hrun as (raws & Hr & Hd). exists (out :: raws).
      cbn [raw_outputs decisions_sequence] in Hr, Hd.
      rewrite Hr, Hd, <- !app_assoc. cbn [map app]. rewrite Hblank.
      split; reflexivity.
  - injection Hrun as <- _. exists [out]. cbn [map raw_outputs decisions_sequence].
    rewrite Hblank. split; reflexivity.
Qed.

(** The loop of a History wrapper with an empty buffer, fed blank outputs
    and then one that is not blank, within the budget. *)
Lemma query_loop_history_first_nonblank (blanks : list string) (good : string) :
  forall (fuel : nat) (run : Run) (world : World) (s : HistoryWrapper.t),
    wrapper run = History s ->
    HistoryWrapper._buffer s = [] ->
    Forall (fun out => str_strip out = "") blanks ->
    str_strip good <> "" ->
    call_index run + Z.of_nat (List.length blanks) < max_calls ->
    (List.length blanks < fuel)%nat ->
    (forall i, (i <= List.length blanks)%nat ->
               model_complete env (model_calls world + i) prompt model_name
                 = Ok (nth i (blanks ++ [good]) "")) ->
    exists run' world',
      query_loop fuel env prompt model_name max_calls run world = Some (Ok run', world') /\
      raw_outputs run' = (raw_outputs run ++ blanks ++ [good])%list /\
      decisions_sequence run'
        = (decisions_sequence run
           ++ repeat "REQUERY" (List.length blanks) ++ ["ALLOW"])%list /\
      final_output run' = good /\
      trace_file world' = trace_file world /\
      model_calls world' = (model_calls world + List.length blanks + 1)%nat.
Proof.
  induction blanks as [|blank blanks IH];
    intros fuel run world s Hw Hbuf Hblanks Hgood Hidx Hfuel Hmodel;
    (destruct fuel as [|fuel]; [cbn [List.length] in Hfuel; lia|]);
    cbn [query_loop];
    cbn [List.length] in Hidx;
    (replace (call_index run <? max_calls)%Z with true
       by (symmetry; apply Z.ltb_lt; lia));
    cbn [call_model fst snd];
    pose proof (Hmodel 0%nat ltac:(lia)) as H0;
    rewrite Nat.add_0_r in H0; cbn [nth app] in H0; rewrite H0, Hw.
  - destruct (history_step_on_empty s prompt good (call_index run) Hbuf)
      as [(Hb & _)|(_ & s' & Hstep)].
    + apply str_not_true in Hb. contradiction.
    + rewrite Hstep. eexists _, _. split; [reflexivity|]. fields_cbn.
      cbn [List.length repeat app]. repeat split. lia.
  - apply Forall_cons_iff in Hblanks. destruct Hblanks as [Hblank Hrest].
    destruct (history_step_on_empty s prompt blank (call_index run) Hbuf)
      as [(_ & Hstep)|(Hb & _)].
    2:{ apply str_not_false in Hb. contradiction. }
    rewrite Hstep.
    replace (call_index run + 1 >=? max_calls)%Z with false
      by (symmetry; rewrite Z.geb_leb; apply Z.leb_gt; lia).
    edestruct (IH fuel
                 {| wrapper := History s;
                    raw_outputs := (raw_outputs run ++ [blank])%list;
                    decisions_sequence :=
                      (decisions_sequence run ++ [Action_value REQUERY])%list;
                    final_output := final_output run;
                    call_index := call_index run + 1 |}
                 {| trace_file := trace_file world;
                    model_calls := S (model_calls world);
                    wrapper_steps := S (wrapper_steps world) |} s)
      as (run' & world' & Hloop & Hr & Hd & Hf & Htr & Hcalls);
      try assumption; try reflexivity.
    + fields_cbn. lia.
    + cbn [List.length] in Hfuel. lia.
    + intros i Hi. fields_cbn.
      replace (S (model_calls world) + i)%nat with (model_calls world + S i)%nat by lia.
      rewrite (Hmodel (S i)); [reflexivity | cbn [List.length]; lia].
    + exists run', world'. fields_cbn. split; [exact Hloop|].
      rewrite Hr, Hd, <- !app_assoc. cbn [List.length repeat app].
      repeat split; try assumption. lia.
Qed.

End HistoryLoop.

Lemma get_wrapper_history (config : WrapperConfig) :
  get_wrapper "history" config = Ok (History (HistoryWrapper.__init__ config)).
Proof. reflexivity. Qed.

(** X18.  In a request the History wrapper starts from an empty buffer and
    the loop ends at the first ALLOW, so only blank outputs are re-queried:
    the decision for each raw output is REQUERY when the output is empty
    once stripped and ALLOW otherwise.  Its memory of earlier outputs plays
    no part within a request. *)
Theorem history_request_requeries_blank_only (env : Env) (cfg : Config.t)
    (req : QueryRequest.t) (world world' : World) (resp : QueryResponse.t) :
  resolve_wrapper_name cfg req = "history" ->
  query env cfg req world = Some (Ok resp, world') ->
  QueryResponse.decisions_sequence resp
  = map (fun raw => if str_not (str_strip raw) then "REQUERY" else "ALLOW")
      (QueryResponse.raw_outputs resp).
Proof.
  intros Hname Hq.
  destruct (query_paths env cfg req world)
    as [(He & Hp)|[(He & e & _ & Hp)|[(He & Hb & Hk & Hp)
       |(He & Hb & built & world0 & Hbuilt & _ & _ & Hp & _)]]];
    rewrite Hp in Hq.
  - injection Hq as <- <-. reflexivity.
  - discriminate.
  - rewrite Hname in Hk. discriminate.
  - rewrite Hname, get_wrapper_history in Hbuilt. injection Hbuilt as <-.
    apply query_run_unfold in Hq. cbv zeta in Hq.
    destruct Hq as [(e & _ & He')|(run & world1 & Hloop & _ & Hresp)]; [discriminate|].
    injection Hresp as ->. fields_cbn.
    apply (query_loop_history_blank _ _ _ _ _ _ _ _ _
             (HistoryWrapper.reset (HistoryWrapper.__init__
                (get_wrapper_config cfg "history")))) in Hloop;
      [|reflexivity|reflexivity].
    destruct Hloop as (raws & Hr & Hd). fields_cbn. cbn [app] in Hr, Hd.
    rewrite Hr, Hd. reflexivity.
Qed.

(** X19.  A History request whose model answers with blank outputs and
    then, within the budget, with one that is not blank returns that
    output as it came, after one call per output: REQUERY for each blank
    one, then ALLOW. *)
Theorem history_answers_first_nonblank (env : Env) (cfg : Config.t)
    (req : QueryRequest.t) (world : World) (blanks : list string) (good : string) :
  let wrapper_name := resolve_wrapper_name cfg req in
  let prompt := str_strip (QueryRequest.prompt req) in
  let model_name := dict_get (Config.model_name cfg) "google/gemini-2.5-flash-lite" in
  wrapper_name = "history" ->
  prompt <> "" ->
  Forall (fun out => str_strip out = "") blanks ->
  str_strip good <> "" ->
  Z.of_nat (List.length blanks)
    < resolve_max_calls cfg req wrapper_name (get_wrapper_config cfg wrapper_name) ->
  (forall i, (i <= List.length blanks)%nat ->
             model_complete env (model_calls world + i) prompt model_name
               = Ok (nth i (blanks ++ [good]) "")) ->
  exists resp world',
    query env cfg req world = Some (Ok resp, world') /\
    QueryResponse.raw_outputs resp = (blanks ++ [good])%list /\
    QueryResponse.decisions_sequence resp
      = (repeat "REQUERY" (List.length blanks) ++ ["ALLOW"])%list /\
    QueryResponse.wrapper_decision resp = "ALLOW" /\
    QueryResponse.final_output resp = good /\
    QueryResponse.model_call_count resp = Z.of_nat (List.length blanks) + 1 /\
    model_calls world' = (model_calls world + List.length blanks + 1)%nat.
Proof.
  intros wrapper_name prompt model_name Hname Hne Hblanks Hgood HN Hmodel.
  apply str_not_false in Hne.
  destruct (query_paths env cfg req world)
    as [(He & _)|[(_ & e & Hg & _)|[(_ & _ & Hk & _)
       |(_ & _ & built & world0 & Hbuilt & Htr0 & Hm0 & Hp & _)]]].
  - fold prompt in He. congruence.
  - fold wrapper_name in Hg. rewrite Hname, get_wrapper_history in Hg. discriminate.
  - fold wrapper_name in Hk. rewrite Hname in Hk. discriminate.
  - fold wrapper_name in Hbuilt. rewrite Hname, get_wrapper_history in Hbuilt.
    injection Hbuilt as <-.
    rewrite Hp. fold wrapper_name. fold prompt. fold model_name.
    unfold query_run.
    set (N := resolve_max_calls cfg req wrapper_name
                (get_wrapper_config cfg wrapper_name)) in *.
    edestruct (query_loop_history_first_nonblank env prompt model_name N blanks good
                 (S (Z.to_nat N))
                 {| wrapper := wrapper_reset
                                 (History (HistoryWrapper.__init__
                                    (get_wrapper_config cfg "history")));
                    raw_outputs := []; decisions_sequence := [];
                    final_output := ""; call_index := 0 |}
                 world0
                 (HistoryWrapper.reset
                    (HistoryWrapper.__init__ (get_wrapper_config cfg "history"))))
      as (run' & world1 & Hloop & Hr & Hd & Hf & Htr & Hcalls);
      try assumption; try reflexivity.
    + lia.
    + intros i Hi. rewrite Hm0. now apply Hmodel.
    + rewrite Hname in *. rewrite Hloop. fields_cbn. cbn [app] in Hr, Hd.
      eexists _, _. split; [reflexivity|]. fields_cbn.
      rewrite Hr, Hd, Hf. repeat split.
      * apply last_snoc.
      * rewrite length_app. cbn [List.length]. lia.
      * lia.
Qed.

End HandlerProperties.

(** ** Runs that satisfy the hypotheses of the further properties *)

(** A [k = 3] wrapper that has just allowed "same" is offered it again,
    with blanks around it. *)
Lemma history_repeat_is_requeried_witness :
  1 <= HistoryWrapper._k
         (HistoryWrapper.__init__
            {| cfg_banned_keywords := None; cfg_k := Some 3; cfg_max_queries := None |}) /\
  HistoryWrapper.step
    (HistoryWrapper.set_buffer
       (HistoryWrapper.__init__
          {| cfg_banned_keywords := None; cfg_k := Some 3; cfg_max_queries := None |})
       ["same"])
    "again" " same " 1
  = Ok (REQUERY, "",
        HistoryWrapper.set_buffer
          (HistoryWrapper.__init__
             {| cfg_banned_keywords := None; cfg_k := Some 3; cfg_max_queries := None |})
          ["same"]).
Proof.
  assert (Hk : 1 <= HistoryWrapper._k
                      (HistoryWrapper.__init__
                         {| cfg_banned_keywords := None; cfg_k := Some 3;
                            cfg_max_queries := None |}))
    by (vm_compute; discriminate).
  split; [exact Hk|].
  exact (history_repeat_is_requeried
           (HistoryWrapper.__init__
              {| cfg_banned_keywords := None; cfg_k := Some 3; cfg_max_queries := None |})
           _ "hello" "same" "same" 0 "again" " same " 1 Hk eq_refl eq_refl).
Defined.

(** A [k = 0] wrapper is offered an output it could have seen before. *)
Lemma history_nonpositive_k_forgets_witness :
  HistoryWrapper._k
    (HistoryWrapper.__init__
       {| cfg_banned_keywords := None; cfg_k := Some 0; cfg_max_queries := None |}) <= 0 /\
  HistoryWrapper.step
    (HistoryWrapper.__init__
       {| cfg_banned_keywords := None; cfg_k := Some 0; cfg_max_queries := None |})
    "hello" "again" 5
  = Ok (ALLOW, "again",
        HistoryWrapper.__init__
          {| cfg_banned_keywords := None; cfg_k := Some 0; cfg_max_queries := None |}).
Proof.
  assert (Hk : HistoryWrapper._k
                 (HistoryWrapper.__init__
                    {| cfg_banned_keywords := None; cfg_k := Some 0;
                       cfg_max_queries := None |}) <= 0)
    by (vm_compute; discriminate).
  split; [exact Hk|].
  apply (history_nonpositive_k_forgets _ "hello" "again" 5 Hk eq_refl).
  discriminate.
Defined.

(** A Noop request answered by the model. *)
Lemma final_output_provenance_witness :
  exists resp world',
    query (stub_env ["model text"]) (example_config ["hack"] 3 2)
      (example_request "hello" "noop" None) world0 = Some (Ok resp, world') /\
    QueryResponse.final_output resp = last (QueryResponse.raw_outputs resp) "" /\
    QueryResponse.final_output resp = "model text".
Proof.
  eexists _, _. split; [vm_compute; reflexivity|]. split; [|reflexivity].
  exact (proj1
    (final_output_provenance (stub_env ["model text"]) (example_config ["hack"] 3 2)
       (example_request "hello" "noop" None) world0 _ _ eq_refl)).
Defined.

(** A History request that runs out of budget on blank outputs. *)
Lemma decisions_requery_until_last_witness :
  exists resp world',
    query (stub_env [""; " "]) (example_config [] 0 2)
      (example_request "hello" "history" None) world0 = Some (Ok resp, world') /\
    QueryResponse.decisions_sequence resp = ["REQUERY"; "REQUERY"] /\
    ~ In "MODIFY" (QueryResponse.decisions_sequence resp).
Proof.
  eexists _, _. split; [vm_compute; reflexivity|]. split; [reflexivity|].
  exact (proj1 (proj2
    (decisions_requery_until_last (stub_env [""; " "]) (example_config [] 0 2)
       (example_request "hello" "history" None) world0 _ _ eq_refl))).
Defined.

(** The record of a Noop request whose prompt came with blanks around it. *)
Lemma trace_record_mirrors_response_witness :
  exists resp world' record,
    query (stub_env ["model text"]) (example_config ["hack"] 3 2)
      (example_request "  hello  " "noop" None) world0 = Some (Ok resp, world') /\
    trace_file world' = (trace_file world0 ++ [record])%list /\
    TraceRecord.user_prompt record = "hello" /\
    TraceRecord.final_output record = QueryResponse.final_output resp.
Proof.
  eexists _, _, _. split; [vm_compute; reflexivity|]. split; [reflexivity|].
  split; [reflexivity|].
  exact (proj1 (proj2 (proj2 (proj2 (proj2 (proj2 (proj2 (proj2
    (trace_record_mirrors_response (stub_env ["model text"])
       (example_config ["hack"] 3 2) (example_request "  hello  " "noop" None)
       world0 _ _ _ eq_refl eq_refl))))))))).
Defined.

(** The record of the blocked Keyword request. *)
Lemma blocked_records_are_precheck_blocks_witness :
  exists resp world' record,
    query (stub_env ["unused"]) (example_config ["hack"] 3 2)
      (example_request "How do I hack into a website?" "keyword" None) world0
      = Some (Ok resp, world') /\
    trace_file world' = (trace_file world0 ++ [record])%list /\
    is_blocked record = true /\
    TraceRecord.total_model_calls record = 0.
Proof.
  eexists _, _, _. split; [vm_compute; reflexivity|]. split; [reflexivity|].
  split; [reflexivity|].
  exact (proj2
    (blocked_records_are_precheck_blocks (stub_env ["unused"])
       (example_config ["hack"] 3 2)
       (example_request "How do I hack into a website?" "keyword" None)
       world0 _ _ _ eq_refl eq_refl) eq_refl).
Defined.

(** A Noop request whose model client fails. *)
Lemma query_raises_only_witness :
  exists e world',
    query (stub_env []) (example_config [] 3 2)
      (example_request "hello" "noop" None) world0 = Some (Raise e, world') /\
    e = HTTPException 502 "upstream failure" /\
    trace_file world' = trace_file world0.
Proof.
  eexists _, _. split; [vm_compute; reflexivity|]. split; [reflexivity|].
  exact (proj1
    (query_raises_only (stub_env []) (example_config [] 3 2)
       (example_request "hello" "noop" None) world0 _ _ eq_refl)).
Defined.

(** A request for a wrapper that does not exist. *)
Lemma unlisted_wrapper_is_refused_witness :
  str_strip "hello" <> "" /\
  ~ In "regex" (map WrapperInfo.id list_wrappers) /\
  query (stub_env ["unused"]) (example_config [] 3 2)
    (example_request "hello" "regex" None) world0
  = Some (Raise (ValueError "Unknown wrapper: regex"), world0).
Proof.
  assert (Hne : str_strip "hello" <> "") by discriminate.
  assert (Hnot : ~ In "regex" (map WrapperInfo.id list_wrappers)).
  { cbn. intros [E|[E|[E|[E|[]]]]]; discriminate. }
  split; [exact Hne|]. split; [exact Hnot|].
  exact (unlisted_wrapper_is_refused (stub_env ["unused"]) (example_config [] 3 2)
           (example_request "hello" "regex" None) world0 Hne Hnot).
Defined.

(** The History wrapper is listed and can be built. *)
Lemma discovery_lists_registry_witness :
  In "history" (map WrapperInfo.id list_wrappers) /\
  exists w, get_wrapper "history" empty_config = Ok w.
Proof.
  assert (Hin : In "history" (map WrapperInfo.id list_wrappers))
    by (cbn; right; right; left; reflexivity).
  split; [exact Hin|].
  exact (proj2 (discovery_lists_registry "history" empty_config) Hin).
Defined.

(** A Keyword request that is not blocked and whose model client fails. *)
Lemma first_call_failure_is_502_witness :
  keyword_precheck_blocks (example_config ["hack"] 3 2)
    (example_request "hello" "keyword" None) = false /\
  exists world',
    query (stub_env []) (example_config ["hack"] 3 2)
      (example_request "hello" "keyword" None) world0
    = Some (Raise (HTTPException 502 "upstream failure"), world') /\
    trace_file world' = trace_file world0 /\
    model_calls world' = 1%nat.
Proof.
  split; [reflexivity|].
  apply (first_call_failure_is_502 (stub_env []) (example_config ["hack"] 3 2)
           (example_request "hello" "keyword" None) world0
           (Keyword (KeywordWrapper.__init__
                       {| cfg_banned_keywords := Some ["hack"]; cfg_k := None;
                          cfg_max_queries := None |}))
           (ValueError "upstream failure")).
  - discriminate.
  - reflexivity.
  - reflexivity.
  - vm_compute. discriminate.
  - reflexivity.
Defined.

(** A query-budget request under a configured budget of 0. *)
Lemma no_budget_no_call_witness :
  resolve_max_calls (example_config [] 3 0)
    (example_request "hello" "query_budget" None) "query_budget"
    (get_wrapper_config (example_config [] 3 0) "query_budget") <= 0 /\
  exists resp world' record,
    query (stub_env ["model text"]) (example_config [] 3 0)
      (example_request "hello" "query_budget" None) world0 = Some (Ok resp, world') /\
    model_calls world' = model_calls world0 /\
    QueryResponse.final_output resp = "" /\
    QueryResponse.wrapper_decision resp = "ALLOW" /\
    trace_file world' = (trace_file world0 ++ [record])%list.
Proof.
  split; [vm_compute; discriminate|].
  destruct (no_budget_no_call (stub_env ["model text"]) (example_config [] 3 0)
              (example_request "hello" "query_budget" None) world0
              (QueryBudget (QueryBudgetWrapper.__init__
                              {| cfg_banned_keywords := None; cfg_k := None;
                                 cfg_max_queries := Some 0 |})))
    as (resp & world' & record & Hq & Hcalls & _ & _ & Hfinal & Hdec & _ & Hfile & _).
  - discriminate.
  - reflexivity.
  - reflexivity.
  - vm_compute. discriminate.
  - exists resp, world', record. repeat split; assumption.
Defined.

(** A Noop request that carries a [max_queries], and a query-budget request
    that asks for 50 calls. *)
Lemma max_queries_without_effect_witness :
  query (stub_env ["a"; "b"]) (example_config [] 3 2)
    (example_request "hello" "noop" (Some 7)) world0
  = query (stub_env ["a"; "b"]) (example_config [] 3 2)
      (example_request "hello" "noop" None) world0 /\
  query (stub_env ["a"; "b"]) (example_config [] 3 2)
    (example_request "hello" "query_budget" (Some 50)) world0
  = query (stub_env ["a"; "b"]) (example_config [] 3 2)
      (example_request "hello" "query_budget" None) world0.
Proof.
  split.
  - apply (max_queries_without_effect (stub_env ["a"; "b"]) (example_config [] 3 2)
             "hello" (Some "noop") 7 world0).
    left. discriminate.
  - apply (max_queries_without_effect (stub_env ["a"; "b"]) (example_config [] 3 2)
             "hello" (Some "query_budget") 50 world0).
    right. intros [_ Hle]. apply Hle. reflexivity.
Defined.

(** A Keyword request that is not blocked. *)
Lemma first_output_passes_unless_history_witness :
  keyword_precheck_blocks (example_config ["hack"] 3 2)
    (example_request "How do I bake bread?" "keyword" None) = false /\
  exists resp world',
    query (stub_env [" With flour. "]) (example_config ["hack"] 3 2)
      (example_request "How do I bake bread?" "keyword" None) world0
      = Some (Ok resp, world') /\
    model_calls world' = 1%nat /\
    QueryResponse.decisions_sequence resp = ["ALLOW"] /\
    QueryResponse.final_output resp = " With flour. ".
Proof.
  split; [reflexivity|].
  destruct (first_output_passes_unless_history (stub_env [" With flour. "])
              (example_config ["hack"] 3 2)
              (example_request "How do I bake bread?" "keyword" None) world0
              (Keyword (KeywordWrapper.__init__
                          {| cfg_banned_keywords := Some ["hack"]; cfg_k := None;
                             cfg_max_queries := None |}))
              " With flour. ")
    as (resp & world' & Hq & Hcalls & _ & Hdecs & _ & Hfinal & _).
  - discriminate.
  - reflexivity.
  - discriminate.
  - reflexivity.
  - vm_compute. discriminate.
  - reflexivity.
  - exists resp, world'. repeat split; assumption.
Defined.

(** A query-budget request that asks for 7 calls. *)
Lemma query_budget_summary_names_budget_witness :
  exists resp world',
    query (stub_env ["model text"]) (example_config [] 3 2)
      (example_request "hello" "query_budget" (Some 7)) world0 = Some (Ok resp, world') /\
    QueryResponse.decision_summary resp = "Query budget: up to 7 call(s); used 1.".
Proof.
  apply (query_budget_summary_names_budget (stub_env ["model text"])
           (example_config [] 3 2) (example_request "hello" "query_budget" (Some 7))
           world0 "model text").
  - reflexivity.
  - discriminate.
  - vm_compute. discriminate.
  - reflexivity.
Defined.

(** The end-to-end scenario of the History wrapper again. *)
Lemma history_request_requeries_blank_only_witness :
  exists resp world',
    query (stub_env [""; "   "; "ok"]) (example_config [] 3 2)
      (example_request "hello" "history" None) world0 = Some (Ok resp, world') /\
    QueryResponse.raw_outputs resp = [""; "   "; "ok"] /\
    QueryResponse.decisions_sequence resp
    = map (fun raw => if str_not (str_strip raw) then "REQUERY" else "ALLOW")
        (QueryResponse.raw_outputs resp).
Proof.
  eexists _, _. split; [vm_compute; reflexivity|]. split; [reflexivity|].
  exact (history_request_requeries_blank_only (stub_env [""; "   "; "ok"])
           (example_config [] 3 2) (example_request "hello" "history" None)
           world0 _ _ eq_refl eq_refl).
Defined.

(** Two blank outputs, then " ok ", under a budget of five calls. *)
Lemma history_answers_first_nonblank_witness :
  Forall (fun out => str_strip out = "") [""; "   "] /\
  str_strip " ok " <> "" /\
  exists resp world',
    query (stub_env [""; "   "; " ok "]) (example_config [] 3 2)
      (example_request "hello" "history" None) world0 = Some (Ok resp, world') /\
    QueryResponse.decisions_sequence resp = ["REQUERY"; "REQUERY"; "ALLOW"] /\
    QueryResponse.final_output resp = " ok " /\
    model_calls world' = 3%nat.
Proof.
  assert (Hblanks : Forall (fun out => str_strip out = "") [""; "   "])
    by (repeat constructor).
  assert (Hgood : str_strip " ok " <> "") by discriminate.
  split; [exact Hblanks|]. split; [exact Hgood|].
  destruct (history_answers_first_nonblank (stub_env [""; "   "; " ok "])
              (example_config [] 3 2) (example_request "hello" "history" None)
              world0 [""; "   "] " ok ")
    as (resp & world' & Hq & _ & Hdecs & _ & Hfinal & _ & Hcalls).
  - reflexivity.
  - discriminate.
  - exact Hblanks.
  - exact Hgood.
  - vm_compute. reflexivity.
  - intros i Hi. destruct i as [|[|[|i]]]; try reflexivity.
    exfalso. cbn [List.length] in Hi.
    apply PeanoNat.Nat.succ_le_mono in Hi. apply PeanoNat.Nat.succ_le_mono in Hi.
    exact (PeanoNat.Nat.nle_succ_0 i Hi).
  - exists resp, world'. repeat split; assumption.
Defined.
